(** * nanobot: the lead tracker and the WhatsApp dispatch tool

    A shallow embedding of
      - [nanobot/skills/lead-finder/scripts/lead_tracker.py] (module [Ledger])
      - [nanobot/agent/tools/send_whatsapp.py]               (module [Dispatch])
    together with the properties of the two that the specification states.

    Conventions of the embedding.

    - A Python [str] is a sequence of Unicode code points: [pystr := list N].
      ASCII literals are written [lit "..."]; the two non-ASCII characters
      that occur in the messages of the source are named constants.
    - [str.isdigit] and the [\d] class of [re] are tables of the Python
      runtime, not of this repository: they are parameters ([str_isdigit],
      [re_digit]) of the sections below.  [Latin1] gives their values on the
      code points below 256, used wherever a closed example is computed.
    - Effects (the file behind [db_path], the clock, raised exceptions) are
      threaded through a small state-and-exception monad [M]. *)

From Stdlib Require Import List NArith QArith Bool String Ascii Arith Lia.
From Stdlib Require Import DecimalString Sorted Permutation.
Import ListNotations.
Close Scope Q_scope.
Local Open Scope list_scope.

(** ** Python strings *)

Definition pystr := list N.

Definition lit (s : string) : pystr :=
  map N_of_ascii (list_ascii_of_string s).

(** U+2014 EM DASH and U+2192 RIGHTWARDS ARROW. *)
Definition EM_DASH : N := 8212%N.
Definition RIGHT_ARROW : N := 8594%N.
Definition PLUS : N := 43%N.

Fixpoint str_eqb (a b : pystr) : bool :=
  match a, b with
  | [], [] => true
  | x :: a', y :: b' => N.eqb x y && str_eqb a' b'
  | _, _ => false
  end.

(** [s.startswith(prefix)] *)
Fixpoint startswith (s prefix : pystr) : bool :=
  match prefix, s with
  | [], _ => true
  | p :: prefix', c :: s' => N.eqb c p && startswith s' prefix'
  | _ :: _, [] => false
  end.

(** [sub in s] *)
Fixpoint contains (s sub : pystr) : bool :=
  startswith s sub ||
  match s with
  | [] => false
  | _ :: s' => contains s' sub
  end.

(** Truth value of a string: [if s:] holds for the non-empty ones. *)
Definition truthy (s : pystr) : bool :=
  match s with [] => false | _ :: _ => true end.

(** [str(n)] for a non-negative integer. *)
Definition str_of_nat (n : nat) : pystr :=
  lit (NilZero.string_of_uint (Nat.to_uint n)).

(** [sep.join(parts)] *)
Fixpoint join (sep : pystr) (parts : list pystr) : pystr :=
  match parts with
  | [] => []
  | [p] => p
  | p :: rest => p ++ sep ++ join sep rest
  end.

(** Code-point order on strings, the order [sorted] uses on [str] keys. *)
Fixpoint str_ltb (a b : pystr) : bool :=
  match a, b with
  | _, [] => false
  | [], _ :: _ => true
  | x :: a', y :: b' => N.ltb x y || (N.eqb x y && str_ltb a' b')
  end.

(** ** The character tables of the runtime on the code points below 256

    The two tables of CPython, restricted to the code points 0..255; above
    255 the functions below answer [false] and stand for no table.  They
    instantiate the parameters in the worked examples, all of which stay
    below 256. *)

Module Latin1.
(** [chr(c).isdigit()]: the ASCII digits and the superscripts
    U+00B2, U+00B3, U+00B9. *)
Definition isdigit (c : N) : bool :=
  ((48 <=? c) && (c <=? 57) || (c =? 178) || (c =? 179) || (c =? 185))%N.

(** [re.match(r"\d", chr(c))]: Unicode category Nd, below 256 the ASCII
    digits only. *)
Definition decimal (c : N) : bool :=
  ((48 <=? c) && (c <=? 57))%N.
End Latin1.

(** ** The effects of the lead tracker *)

(** The exceptions that the modelled code can meet. *)
Inductive exn :=
| OSError              (* PermissionError, IsADirectoryError, ... *)
| JSONDecodeError
| UnicodeDecodeError
| UnicodeEncodeError
| ValueError           (* of json.loads: an integer of more than 4300 digits *)
| RecursionError       (* of json.loads: a document nested too deeply *)
| TypeError.

Definition exn_eqb (a b : exn) : bool :=
  match a, b with
  | OSError, OSError | JSONDecodeError, JSONDecodeError
  | UnicodeDecodeError, UnicodeDecodeError
  | UnicodeEncodeError, UnicodeEncodeError
  | ValueError, ValueError | RecursionError, RecursionError
  | TypeError, TypeError => true
  | _, _ => false
  end.

(** A lone surrogate (U+D800..U+DFFF) is a character of a [str] that
    UTF-8 cannot encode; [sys.argv] holds one for an undecodable byte and
    [json.loads] makes one of the escape \ud800. *)
Definition is_surrogate (c : N) : bool :=
  ((55296 <=? c) && (c <=? 57343))%N.

(** Whether [s.encode("utf-8")] succeeds. *)
Definition encodable (s : pystr) : bool :=
  forallb (fun c => negb (is_surrogate c)) s.

(** A reading of [datetime.now(timezone.utc)]. *)
Module Datetime.
Record t := mk {
  year : N;
  month : N;
  day : N;
  hour : N;
  minute : N;
  second : N;
  microsecond : N
}.

(** [str(n)] *)
Definition str_of_N (n : N) : pystr :=
  lit (NilZero.string_of_uint (N.to_uint n)).

(** [s.zfill(width)] *)
Definition zfill (width : nat) (s : pystr) : pystr :=
  repeat 48%N (width - List.length s) ++ s.

(** [d.isoformat()] for an aware datetime in UTC: the fraction is left out
    when the microsecond is 0. *)
Definition isoformat (d : t) : pystr :=
  zfill 4 (str_of_N (year d)) ++ lit "-"
    ++ zfill 2 (str_of_N (month d)) ++ lit "-"
    ++ zfill 2 (str_of_N (day d)) ++ lit "T"
    ++ zfill 2 (str_of_N (hour d)) ++ lit ":"
    ++ zfill 2 (str_of_N (minute d)) ++ lit ":"
    ++ zfill 2 (str_of_N (second d))
    ++ (if N.eqb (microsecond d) 0 then []
        else lit "." ++ zfill 6 (str_of_N (microsecond d)))
    ++ lit "+00:00".
End Datetime.

(** One lead, with the nine keys [add_lead] writes. *)
Module Lead.
Record t := mk {
  phone : pystr;
  phone_normalized : pystr;
  name : pystr;
  source : pystr;
  message_type : pystr;
  status : pystr;
  date_added : pystr;
  date_updated : pystr;
  notes : pystr
}.
End Lead.
Definition lead : Type := Lead.t.

(** Whether the JSON text of a lead can be encoded: its keys are ASCII, so
    it can when its nine values can. *)
Definition storable (l : lead) : bool :=
  encodable (Lead.phone l) && encodable (Lead.phone_normalized l)
  && encodable (Lead.name l) && encodable (Lead.source l)
  && encodable (Lead.message_type l) && encodable (Lead.status l)
  && encodable (Lead.date_added l) && encodable (Lead.date_updated l)
  && encodable (Lead.notes l).

(** What [json.loads] can return for the file: a list of leads, or, as the
    representative of the JSON documents that are not lists, [None] (the
    text [null]).  Other documents are outside the model. *)
Inductive document :=
| Records (leads : list lead)
| PyNone.

(** The text of the file, as [json.loads] sees it. *)
Inductive text :=
| NotJson                  (* json.loads raises JSONDecodeError; the empty
                              text is such a text *)
| OverLimit                (* JSON with an integer of more than 4300
                              digits: json.loads raises ValueError *)
| TooDeep                  (* JSON nested too deeply: json.loads raises
                              RecursionError *)
| Json (d : document).

(** The file behind [db_path]. *)
Inductive file :=
| Absent                   (* db_path.exists() is False *)
| Inaccessible             (* db_path.exists() raises an OSError: a
                              directory on the way cannot be searched, the
                              name is too long *)
| Unreadable               (* it exists and read_text raises an OSError *)
| NotUtf8                  (* the bytes are not UTF-8: read_text raises
                              UnicodeDecodeError *)
| Text (t : text).

(** The world of a ledger operation: the file; whether [_save] can create
    the directory and open the file for writing; the clock (its successive
    readings) with the number of readings taken; and the number of times
    the file has been opened for writing. *)
Record world := mkWorld {
  disk : file;
  writable : bool;
  clock : nat -> Datetime.t;
  ticks : nat;
  writes : nat
}.

(** The n-th reading of the clock, in ISO format. *)
Definition reading (w : world) (n : nat) : pystr :=
  Datetime.isoformat (clock w n).

(** The world after [k] more readings of the clock. *)
Definition after_readings (k : nat) (w : world) : world :=
  {| disk := disk w; writable := writable w; clock := clock w;
     ticks := k + ticks w; writes := writes w |}.

(** The world after the file has been opened for writing and been left
    holding [f]. *)
Definition rewritten (f : file) (w : world) : world :=
  {| disk := f; writable := writable w; clock := clock w;
     ticks := ticks w; writes := S (writes w) |}.

Inductive outcome (A : Type) :=
| Return (a : A)
| Raise (e : exn).
Arguments Return {A} a.
Arguments Raise {A} e.

Definition M (A : Type) : Type := world -> outcome A * world.

Definition ret {A} (a : A) : M A := fun w => (Return a, w).
Definition raise {A} (e : exn) : M A := fun w => (Raise e, w).
Definition bind {A B} (m : M A) (k : A -> M B) : M B :=
  fun w => match m w with
           | (Return a, w') => k a w'
           | (Raise e, w') => (Raise e, w')
           end.

(** [try: m  except handled: h] *)
Definition try_except {A} (m : M A) (handled : list exn) (h : M A) : M A :=
  fun w => match m w with
           | (Return a, w') => (Return a, w')
           | (Raise e, w') =>
               if existsb (exn_eqb e) handled then h w' else (Raise e, w')
           end.

Declare Scope py_scope.
Delimit Scope py_scope with py.
Notation "x <- m ;; k" := (bind m (fun x => k))
  (at level 61, m at next level, right associativity) : py_scope.
Notation "m ;;; k" := (bind m (fun _ => k))
  (at level 61, right associativity) : py_scope.
Local Open Scope py_scope.

(** [db_path.exists()] *)
Definition path_exists : M bool :=
  fun w => match disk w with
           | Absent => (Return false, w)
           | Inaccessible => (Raise OSError, w)
           | _ => (Return true, w)
           end.

(** [db_path.read_text(encoding="utf-8")] *)
Definition read_text : M text :=
  fun w => match disk w with
           | Absent | Inaccessible | Unreadable => (Raise OSError, w)
           | NotUtf8 => (Raise UnicodeDecodeError, w)
           | Text t => (Return t, w)
           end.

(** [json.loads(t)] *)
Definition json_loads (t : text) : M document :=
  match t with
  | NotJson => raise JSONDecodeError
  | OverLimit => raise ValueError
  | TooDeep => raise RecursionError
  | Json d => ret d
  end.

(** [db_path.parent.mkdir(parents=True, exist_ok=True)] followed by
    [db_path.write_text(json.dumps(leads, indent=2, ensure_ascii=False),
    encoding="utf-8")].  Where the directory cannot be made or the file not
    opened, an OSError is raised and the file is as before.  Otherwise the
    file is opened, which empties it, and the text is encoded: with a lone
    surrogate in it UnicodeEncodeError is raised and the file stays empty;
    without, the file holds the JSON text of [leads]. *)
Definition write_leads (leads : list lead) : M unit :=
  fun w =>
    if negb (writable w) then (Raise OSError, w)
    else if forallb storable leads then
      (Return tt,
       {| disk := Text (Json (Records leads)); writable := writable w;
           clock := clock w; ticks := ticks w; writes := S (writes w) |})
    else
      (Raise UnicodeEncodeError,
       {| disk := Text NotJson; writable := writable w;
           clock := clock w; ticks := ticks w; writes := S (writes w) |}).

(** [datetime.now(timezone.utc).isoformat()]: one reading of the clock. *)
Definition now_iso : M pystr :=
  fun w => (Return (reading w (ticks w)),
            {| disk := disk w; writable := writable w; clock := clock w;
               ticks := S (ticks w); writes := writes w |}).

(** [for x in d]: a list is iterated, [None] is not iterable. *)
Definition iterate (d : document) : M (list lead) :=
  match d with
  | Records leads => ret leads
  | PyNone => raise TypeError
  end.

(** [not d] *)
Definition is_falsy (d : document) : bool :=
  match d with
  | Records [] => true
  | Records (_ :: _) => false
  | PyNone => true
  end.

(** [len(d)] *)
Definition len (d : document) : M nat :=
  match d with
  | Records leads => ret (List.length leads)
  | PyNone => raise TypeError
  end.

(** ** lead_tracker.py *)

Module Ledger.
Section WithTables.

(** [c.isdigit()] for a one-character string. *)
Variable str_isdigit : N -> bool.

(** [_load(db_path)] *)
Definition _load : M document :=
  found <- path_exists ;;
  if negb found then ret (Records [])
  else try_except (t <- read_text ;; json_loads t)
                  [JSONDecodeError; OSError]
                  (ret (Records [])).

(** [_save(db_path, leads)] *)
Definition _save (leads : list lead) : M unit := write_leads leads.

(** [_normalize_phone(phone)]: strip non-digit chars except leading +. *)
Definition _normalize_phone (phone : pystr) : pystr :=
  match phone with
  | c :: rest =>
      if N.eqb c PLUS then PLUS :: filter str_isdigit rest
      else filter str_isdigit phone
  | [] => filter str_isdigit phone
  end.

(** The test of the three scanning loops:
    [_normalize_phone(lead["phone"]) == norm]. *)
Definition same_phone (norm : pystr) (l : lead) : bool :=
  str_eqb (_normalize_phone (Lead.phone l)) norm.

(** The dict that [add_lead] appends. *)
Definition new_lead (phone norm name source message added updated : pystr)
  : lead :=
  {| Lead.phone := phone;
     Lead.phone_normalized := norm;
     Lead.name := name;
     Lead.source := source;
     Lead.message_type := message;
     Lead.status := lit "contacted";
     Lead.date_added := added;
     Lead.date_updated := updated;
     Lead.notes := [] |}.

(** [add_lead(db_path, phone, name, source, message)] *)
Definition add_lead (phone name source message : pystr) : M pystr :=
  leads <- _load ;;
  let norm := _normalize_phone phone in
  items <- iterate leads ;;
  match find (same_phone norm) items with
  | Some l =>
      ret (lit "DUPLICATE: " ++ phone ++ lit " already in tracker (added "
             ++ Lead.date_added l ++ lit ")")
  | None =>
      added <- now_iso ;;
      updated <- now_iso ;;
      _save (items ++ [new_lead phone norm name source message
                                added updated]) ;;;
      ret (lit "OK: Added " ++ phone ++ lit " (" ++ name ++ lit ") from "
             ++ source)
  end.

(** [check_lead(db_path, phone)] *)
Definition check_lead (phone : pystr) : M pystr :=
  leads <- _load ;;
  let norm := _normalize_phone phone in
  items <- iterate leads ;;
  match find (same_phone norm) items with
  | Some l =>
      ret (lit "FOUND: " ++ Lead.phone l ++ lit " | " ++ Lead.name l
             ++ lit " | status=" ++ Lead.status l
             ++ lit " | source=" ++ Lead.source l
             ++ lit " | added=" ++ Lead.date_added l)
  | None =>
      ret (lit "NOT_FOUND: " ++ phone ++ lit " is not in the tracker "
             ++ [EM_DASH] ++ lit " safe to contact")
  end.

(** The assignments of [update_lead] to the matched dict. *)
Definition set_status (status : pystr) (l : lead) : lead :=
  {| Lead.phone := Lead.phone l;
     Lead.phone_normalized := Lead.phone_normalized l;
     Lead.name := Lead.name l; Lead.source := Lead.source l;
     Lead.message_type := Lead.message_type l;
     Lead.status := status;
     Lead.date_added := Lead.date_added l;
     Lead.date_updated := Lead.date_updated l;
     Lead.notes := Lead.notes l |}.

Definition set_notes (notes : pystr) (l : lead) : lead :=
  {| Lead.phone := Lead.phone l;
     Lead.phone_normalized := Lead.phone_normalized l;
     Lead.name := Lead.name l; Lead.source := Lead.source l;
     Lead.message_type := Lead.message_type l;
     Lead.status := Lead.status l;
     Lead.date_added := Lead.date_added l;
     Lead.date_updated := Lead.date_updated l;
     Lead.notes := notes |}.

Definition set_date_updated (t : pystr) (l : lead) : lead :=
  {| Lead.phone := Lead.phone l;
     Lead.phone_normalized := Lead.phone_normalized l;
     Lead.name := Lead.name l; Lead.source := Lead.source l;
     Lead.message_type := Lead.message_type l;
     Lead.status := Lead.status l;
     Lead.date_added := Lead.date_added l;
     Lead.date_updated := t;
     Lead.notes := Lead.notes l |}.

(** The list after the dict of the first lead that satisfies [p] has been
    mutated into [l']: the dict is shared with the list, so the list sees
    the mutation at that position. *)
Fixpoint mutate_first (p : lead -> bool) (l' : lead) (items : list lead)
  : list lead :=
  match items with
  | [] => []
  | l :: rest => if p l then l' :: rest else l :: mutate_first p l' rest
  end.

(** [update_lead(db_path, phone, status, notes)] *)
Definition update_lead (phone status notes : pystr) : M pystr :=
  leads <- _load ;;
  let norm := _normalize_phone phone in
  items <- iterate leads ;;
  match find (same_phone norm) items with
  | Some l =>
      let l := if truthy status then set_status status l else l in
      let l := if truthy notes then set_notes notes l else l in
      t <- now_iso ;;
      let l := set_date_updated t l in
      _save (mutate_first (same_phone norm) l items) ;;;
      ret (lit "OK: Updated " ++ phone ++ lit " " ++ [RIGHT_ARROW]
             ++ lit " status=" ++ Lead.status l)
  | None => ret (lit "NOT_FOUND: " ++ phone)
  end.

Definition NL : N := 10%N.

(** [enumerate(items, start)] *)
Definition enumerate (start : nat) (items : list lead) : list (nat * lead) :=
  combine (seq start (List.length items)) items.

(** One line of [list_leads]. *)
Definition summary_line (il : nat * lead) : pystr :=
  let (i, l) := il in
  str_of_nat i ++ lit ". " ++ Lead.phone l ++ lit " | " ++ Lead.name l
    ++ lit " | status=" ++ Lead.status l
    ++ lit " | source=" ++ Lead.source l
    ++ lit " | " ++ Lead.date_added l.

(** [list_leads(db_path, status)] *)
Definition list_leads (status : pystr) : M pystr :=
  leads <- _load ;;
  leads <- (if truthy status
            then items <- iterate leads ;;
                 ret (Records
                        (filter (fun l => str_eqb (Lead.status l) status)
                                items))
            else ret leads) ;;
  if is_falsy leads then ret (lit "No leads found.")
  else
    n <- len leads ;;
    items <- iterate leads ;;
    ret (join [NL]
           ((lit "Total: " ++ str_of_nat n ++ lit " leads" ++ [NL])
              :: map summary_line (enumerate 1 items))).

(** [d[k] = d.get(k, 0) + 1] on a dict kept in insertion order. *)
Fixpoint bump (k : pystr) (d : list (pystr * nat)) : list (pystr * nat) :=
  match d with
  | [] => [(k, 1)]
  | (k', v) :: rest =>
      if str_eqb k' k then (k', S v) :: rest else (k', v) :: bump k rest
  end.

Definition count_by (key : lead -> pystr) (items : list lead)
  : list (pystr * nat) :=
  fold_left (fun d l => bump (key l) d) items [].

(** [sorted(d.items())]: the keys of a dict are distinct, so the pairs are
    ordered by key. *)
Fixpoint insert_sorted (kv : pystr * nat) (d : list (pystr * nat))
  : list (pystr * nat) :=
  match d with
  | [] => [kv]
  | kv' :: rest =>
      if str_ltb (fst kv') (fst kv) then kv' :: insert_sorted kv rest
      else kv :: kv' :: rest
  end.

Definition sorted (d : list (pystr * nat)) : list (pystr * nat) :=
  fold_right insert_sorted [] d.

Definition count_line (kv : pystr * nat) : pystr :=
  lit "  " ++ fst kv ++ lit ": " ++ str_of_nat (snd kv).

(** [stats(db_path)] *)
Definition stats : M pystr :=
  leads <- _load ;;
  if is_falsy leads then ret (lit "No leads yet.")
  else
    items <- iterate leads ;;
    let by_status := count_by Lead.status items in
    let by_source := count_by Lead.source items in
    n <- len leads ;;
    ret (join [NL]
           ([lit "Total leads: " ++ str_of_nat n ++ [NL]; lit "By status:"]
              ++ map count_line (sorted by_status)
              ++ [NL :: lit "By source:"]
              ++ map count_line (sorted by_source))).

(** [run_tests()], on a temporary path where no file exists: whether
    all its assertions hold. *)
Definition run_tests : M bool :=
  r1 <- add_lead (lit "+1234567890") (lit "Test Biz") (lit "reddit")
                 (lit "intro") ;;
  r2 <- add_lead (lit "+1234567890") (lit "Test Biz") (lit "reddit")
                 (lit "intro") ;;
  r3 <- check_lead (lit "+1234567890") ;;
  r4 <- check_lead (lit "+9999999999") ;;
  r5 <- update_lead (lit "+1234567890") (lit "responded") [] ;;
  r6 <- list_leads [] ;;
  r7 <- stats ;;
  ret (startswith r1 (lit "OK")
       && startswith r2 (lit "DUPLICATE")
       && startswith r3 (lit "FOUND")
       && startswith r4 (lit "NOT_FOUND")
       && startswith r5 (lit "OK")
       && contains r6 (lit "1.")
       && contains r7 (lit "Total leads: 1")).

End WithTables.
End Ledger.

(** ** send_whatsapp.py *)

Module Dispatch.

(** An exception (a subclass of [Exception]) met while talking to the
    bridge, with the text [str(e)].  [asyncio.TimeoutError] and
    [ConnectionRefusedError] are the two classes the source tells apart. *)
Inductive exc_class := ConnectionRefusedError | TimeoutError | OtherException.

Record exc := mkExc { exc_kind : exc_class; exc_text : pystr }.

(** A value of a decoded JSON object: a string, or anything else, kept as
    the text [str] gives for it. *)
Inductive jvalue :=
| JStr (s : pystr)
| JOther (shown : pystr).

(** What [json.loads(raw)] makes of an inbound message. *)
Inductive frame :=
| Unparsable (why : pystr)      (* json.loads raises; [why] is str(e) *)
| NotObject (why : pystr)       (* not a dict: [.get] raises AttributeError *)
| Object (fields : list (pystr * jvalue)).

(** What [ws.recv()] does: a message becomes available [after] seconds,
    or none ever does, or the call raises before the timeout. *)
Inductive reply :=
| Arrives (after : Q) (f : frame)
| Silent
| Breaks (e : exc).

(** The environment of one call of [execute].  Leaving the [async with]
    block (closing the connection) is taken to succeed, and the exceptions
    are those derived from [Exception]. *)
Record bridge := mkBridge {
  websockets_installed : bool;        (* does [import websockets] work *)
  connect_fails : option exc;         (* [websockets.connect] raises *)
  send_fails : option exc;            (* [ws.send] raises *)
  answer : reply
}.

(** What the tool does on the network, in order. *)
Inductive action :=
| Connect (url : pystr)
| Send (payload : list (pystr * pystr))   (* the dict given to json.dumps *)
| Recv (timeout : Q).

Record tool := mkTool { bridge_url : pystr }.

(** [SendWhatsAppTool.__init__(bridge_url)], [environ] being the value of
    WHATSAPP_BRIDGE_URL when it is set. *)
Definition __init__ (url : option pystr) (environ : option pystr) : tool :=
  let fallback := match environ with
                  | Some u => u
                  | None => lit "ws://localhost:3001"
                  end in
  mkTool (match url with
          | Some u => if truthy u then u else fallback
          | None => fallback
          end).

(** [d.get(key)] *)
Fixpoint get (d : list (pystr * jvalue)) (key : pystr) : option jvalue :=
  match d with
  | [] => None
  | (k, v) :: rest => if str_eqb k key then Some v else get rest key
  end.

(** [v == s] for a string [s] *)
Definition equals_str (v : option jvalue) (s : pystr) : bool :=
  match v with
  | Some (JStr t) => str_eqb t s
  | _ => false
  end.

(** [str(v)], as an f-string formats it. *)
Definition show (v : jvalue) : pystr :=
  match v with JStr s => s | JOther shown => shown end.

(** The timeout given to [asyncio.wait_for], in seconds. *)
Definition CONFIRM_TIMEOUT : Q := 15%Q.

(** [await asyncio.wait_for(ws.recv(), timeout)] *)
Definition wait_for (r : reply) (timeout : Q) : exc + frame :=
  match r with
  | Arrives after f =>
      if Qle_bool timeout after
      then inl (mkExc TimeoutError [])
      else inr f
  | Silent => inl (mkExc TimeoutError [])
  | Breaks e => inl e
  end.

(** The requests put on the wire, read off what was done. *)
Fixpoint requests (done : list action) : list (list (pystr * pystr)) :=
  match done with
  | [] => []
  | Send payload :: rest => payload :: requests rest
  | _ :: rest => requests rest
  end.

Section WithTables.

(** [re.match(r"\d", c)] for a one-character string. *)
Variable re_digit : N -> bool.

(** [_normalize_phone(phone)]: [re.sub(r"[^\d]", "", phone)] *)
Definition _normalize_phone (phone : pystr) : pystr :=
  filter re_digit phone.

(** [_phone_to_jid(phone)] *)
Definition _phone_to_jid (phone : pystr) : pystr :=
  let digits := filter re_digit phone in
  digits ++ lit "@s.whatsapp.net".

(** The two handlers of the outer [try] of [execute]:
    [except ConnectionRefusedError] and [except Exception as e]. *)
Definition handlers (self : tool) (e : exc) : pystr :=
  match exc_kind e with
  | ConnectionRefusedError =>
      lit "Error: Cannot connect to WhatsApp bridge at "
        ++ bridge_url self
        ++ lit ". Make sure the bridge is running (cd bridge && npm start)."
  | _ => lit "Error sending WhatsApp message: " ++ exc_text e
  end.

(** The inner [try] of [execute]: wait for the confirmation. *)
Definition confirmation (env : bridge) (phone jid : pystr) : exc + pystr :=
  match wait_for (answer env) CONFIRM_TIMEOUT with
  | inr (Object response) =>
      if equals_str (get response (lit "type")) (lit "sent") then
        inr (lit "OK: Message sent to " ++ phone ++ lit " (" ++ jid
               ++ lit ")")
      else if equals_str (get response (lit "type")) (lit "error") then
        inr (lit "Error from bridge: "
               ++ match get response (lit "error") with
                  | Some v => show v
                  | None => lit "unknown"
                  end)
      else
        inr (lit "OK: Message dispatched to " ++ phone ++ lit " (" ++ jid
               ++ lit ")")
  | inr (Unparsable why) => inl (mkExc OtherException why)
  | inr (NotObject why) => inl (mkExc OtherException why)
  | inl e =>
      match exc_kind e with
      | TimeoutError =>
          inr (lit "Warning: Message sent but no confirmation received (timeout). Check bridge logs.")
      | _ => inl e
      end
  end.

(** The outer [try] of [execute], before its handlers: connect, send,
    wait. *)
Definition exchange (self : tool) (env : bridge) (phone message jid : pystr)
  : (exc + pystr) * list action :=
  match connect_fails env with
  | Some e => (inl e, [Connect (bridge_url self)])
  | None =>
      let payload := [(lit "type", lit "send");
                      (lit "to", jid);
                      (lit "text", message)] in
      match send_fails env with
      | Some e => (inl e, [Connect (bridge_url self); Send payload])
      | None =>
          (confirmation env phone jid,
           [Connect (bridge_url self); Send payload; Recv CONFIRM_TIMEOUT])
      end
  end.

(** [execute(phone, message)]: the returned text and what was done on the
    network. *)
Definition execute (self : tool) (env : bridge) (phone message : pystr)
  : pystr * list action :=
  if negb (truthy phone) || negb (truthy message) then
    (lit "Error: Both 'phone' and 'message' are required.", [])
  else
    let digits := _normalize_phone phone in
    if (List.length digits <? 7) || (15 <? List.length digits) then
      (lit "Error: Invalid phone number '" ++ phone ++ lit "' "
         ++ [EM_DASH] ++ lit " must be 7-15 digits with country code.", [])
    else
      let jid := _phone_to_jid phone in
      if negb (websockets_installed env) then
        (lit "Error: 'websockets' package required. Install: pip install websockets", [])
      else
        match exchange self env phone message jid with
        | (inr result, done) => (result, done)
        | (inl e, done) => (handlers self e, done)
        end.

End WithTables.
End Dispatch.

(** ** Calls in sequence *)

Module Session.


Section WithTables.

Variable str_isdigit : N -> bool.



End WithTables.
End Session.

(** [d.get(k, 0)] on a dict of counts. *)
Fixpoint count_of (k : pystr) (d : list (pystr * nat)) : nat :=
  match d with
  | [] => 0
  | (k', v) :: rest => if str_eqb k' k then v else count_of k rest
  end.

(** The fields of a lead that [update_lead] never assigns. *)
Definition created_with (l : lead) : pystr * pystr * pystr * pystr * pystr * pystr :=
  (Lead.phone l, Lead.phone_normalized l, Lead.name l, Lead.source l,
   Lead.message_type l, Lead.date_added l).

(** ** Concrete worlds, used by the worked examples *)

Module Scenario.

(** The moment [us] microseconds after 2024-01-01T00:00:00 UTC; the
    clock below stops at the last microsecond of that January. *)
Definition january (us : N) : Datetime.t :=
  let t := N.min us 2678399999999 in
  {| Datetime.year := 2024;
     Datetime.month := 1;
     Datetime.day := 1 + t / 86400000000;
     Datetime.hour := (t / 3600000000) mod 24;
     Datetime.minute := (t / 60000000) mod 60;
     Datetime.second := (t / 1000000) mod 60;
     Datetime.microsecond := t mod 1000000 |}%N.

(** A clock that advances by one microsecond from one reading to the next,
    starting at midnight. *)
Definition iso_clock (n : nat) : Datetime.t := january (N.of_nat n).

Definition at_disk (f : file) : world :=
  {| disk := f; writable := true; clock := iso_clock; ticks := 0;
     writes := 0 |}.

(** No file yet. *)
Definition fresh : world := at_disk Absent.

(** The lead of the usage text of lead_tracker.py. *)
Definition joe : lead :=
  {| Lead.phone := lit "+1234567890";
     Lead.phone_normalized := lit "+1234567890";
     Lead.name := lit "Joe's Pizza";
     Lead.source := lit "reddit";
     Lead.message_type := lit "intro";
     Lead.status := lit "contacted";
     Lead.date_added := lit "2023-12-31T09:30:00.481516+00:00";
     Lead.date_updated := lit "2023-12-31T09:30:00.481523+00:00";
     Lead.notes := [] |}.

Definition ann : lead :=
  {| Lead.phone := lit "(44) 20 7946 0958";
     Lead.phone_normalized := lit "442079460958";
     Lead.name := lit "Ann";
     Lead.source := lit "forum";
     Lead.message_type := lit "intro";
     Lead.status := lit "responded";
     Lead.date_added := lit "2023-12-30T08:00:00.250000+00:00";
     Lead.date_updated := lit "2023-12-30T18:00:04.125000+00:00";
     Lead.notes := lit "call back" |}.

Definition stocked : world := at_disk (Text (Json (Records [ann; joe]))).

(** A file that is not UTF-8, and a file that holds the text [null]. *)
Definition garbled : world := at_disk NotUtf8.
Definition null_file : world := at_disk (Text (Json PyNone)).

(** U+D800, a lone surrogate. *)
Definition LONE_SURROGATE : N := 55296%N.

(** Ann again, from a file in which her notes are the JSON string
    "\ud800". *)
Definition ann_scarred : lead :=
  {| Lead.phone := lit "(44) 20 7946 0958";
     Lead.phone_normalized := lit "442079460958";
     Lead.name := lit "Ann";
     Lead.source := lit "forum";
     Lead.message_type := lit "intro";
     Lead.status := lit "responded";
     Lead.date_added := lit "2023-12-30T08:00:00.250000+00:00";
     Lead.date_updated := lit "2023-12-30T18:00:04.125000+00:00";
     Lead.notes := [LONE_SURROGATE] |}.

Definition scarred : world :=
  at_disk (Text (Json (Records [ann_scarred; joe]))).

(** The world after the first add of the self-test. *)
Definition after_first_add : world :=
  snd (Ledger.add_lead Latin1.isdigit (lit "+1234567890") (lit "Test Biz")
                       (lit "reddit") (lit "intro") fresh).

(** The stocked ledger in a file that cannot be written. *)
Definition read_only : world :=
  {| disk := Text (Json (Records [ann; joe])); writable := false;
     clock := iso_clock; ticks := 0; writes := 0 |}.

Definition the_tool : Dispatch.tool := Dispatch.__init__ None None.

(** A bridge that accepts the connection and the request and then does
    what [r] says. *)
Definition bridge_that (r : Dispatch.reply) : Dispatch.bridge :=
  {| Dispatch.websockets_installed := true;
     Dispatch.connect_fails := None;
     Dispatch.send_fails := None;
     Dispatch.answer := r |}.

Definition status_frame : Dispatch.frame :=
  Dispatch.Object [(lit "type", Dispatch.JStr (lit "status"));
                   (lit "status", Dispatch.JStr (lit "connected"))].

Definition error_frame : Dispatch.frame :=
  Dispatch.Object [(lit "type", Dispatch.JStr (lit "error"));
                   (lit "error", Dispatch.JStr (lit "not on WhatsApp"))].

(** U+00B2 SUPERSCRIPT TWO *)
Definition SUPERSCRIPT_TWO : N := 178%N.

Definition sent_frame : Dispatch.frame :=
  Dispatch.Object [(lit "type", Dispatch.JStr (lit "sent"));
                   (lit "to", Dispatch.JStr (lit "1234567890@s.whatsapp.net"))].

(** No bridge is listening. *)
Definition no_bridge : Dispatch.bridge :=
  {| Dispatch.websockets_installed := true;
     Dispatch.connect_fails :=
       Some (Dispatch.mkExc Dispatch.ConnectionRefusedError
                            (lit "[Errno 111] Connect call failed"));
     Dispatch.send_fails := None;
     Dispatch.answer := Dispatch.Silent |}.


End Scenario.

(** * Properties *)

(** ** Strings *)

Lemma str_eqb_spec (a b : pystr) : reflect (a = b) (str_eqb a b).
Proof.
  revert b; induction a as [|x a IH]; intros [|y b]; simpl;
    try (constructor; congruence).
  destruct (N.eqb_spec x y) as [->|Hxy]; simpl.
  - destruct (IH b) as [->|Hab]; constructor; congruence.
  - constructor; congruence.
Qed.

Lemma str_eqb_refl (a : pystr) : str_eqb a a = true.
Proof. destruct (str_eqb_spec a a); congruence. Qed.

Lemma str_eqb_eq (a b : pystr) : str_eqb a b = true <-> a = b.
Proof. destruct (str_eqb_spec a b); split; congruence. Qed.

Lemma startswith_app (p s : pystr) : startswith (p ++ s) p = true.
Proof.
  induction p as [|c p IH]; simpl; [destruct s; reflexivity|].
  now rewrite N.eqb_refl.
Qed.

(** ** The store *)

Lemma load_keeps_world (w : world) : snd (Ledger._load w) = w.
Proof.
  unfold Ledger._load, bind, path_exists, try_except, read_text, json_loads.
  destruct w as [[| | | |[| | |d]] wr c t n]; reflexivity.
Qed.

Lemma load_never_writes (w : world) (o : outcome document) (w' : world) :
  Ledger._load w = (o, w') -> w' = w.
Proof. intros H; rewrite <- (load_keeps_world w), H; reflexivity. Qed.

Lemma load_stored (w : world) (d : document) :
  disk w = Text (Json d) -> Ledger._load w = (Return d, w).
Proof.
  intros H; unfold Ledger._load, bind, path_exists, try_except, read_text.
  rewrite H; cbn; rewrite H; reflexivity.
Qed.

Lemma load_empty (w : world) :
  disk w = Absent \/ disk w = Unreadable \/ disk w = Text NotJson ->
  Ledger._load w = (Return (Records []), w).
Proof.
  unfold Ledger._load, bind, path_exists, try_except, read_text.
  intros [H|[H|H]]; rewrite H; cbn; rewrite ?H; reflexivity.
Qed.

(** *** What can be written *)

Lemma encodable_app (a b : pystr) :
  encodable (a ++ b) = encodable a && encodable b.
Proof. apply forallb_app. Qed.

Lemma digits_encodable (d : Decimal.uint) :
  encodable (lit (NilEmpty.string_of_uint d)) = true.
Proof. induction d; cbn; auto. Qed.

Lemma str_of_N_encodable (n : N) : encodable (Datetime.str_of_N n) = true.
Proof.
  unfold Datetime.str_of_N, NilZero.string_of_uint.
  destruct (N.to_uint n); try reflexivity; apply digits_encodable.
Qed.

Lemma zfill_encodable (width : nat) (s : pystr) :
  encodable s = true -> encodable (Datetime.zfill width s) = true.
Proof.
  intros H. unfold Datetime.zfill. rewrite encodable_app, H, andb_true_r.
  induction (width - List.length s) as [|k IH]; [reflexivity|exact IH].
Qed.

(** The text of a reading of the clock is ASCII. *)
Lemma isoformat_encodable (d : Datetime.t) :
  encodable (Datetime.isoformat d) = true.
Proof.
  unfold Datetime.isoformat.
  repeat rewrite encodable_app.
  repeat rewrite (zfill_encodable _ _ (str_of_N_encodable _)).
  destruct (N.eqb (Datetime.microsecond d) 0); [reflexivity|].
  rewrite encodable_app, (zfill_encodable _ _ (str_of_N_encodable _)).
  reflexivity.
Qed.

Lemma filter_encodable (f : N -> bool) (s : pystr) :
  encodable s = true -> encodable (filter f s) = true.
Proof.
  induction s as [|c s IH]; simpl; [reflexivity|].
  intros H. apply andb_true_iff in H as [Hc Hs].
  destruct (f c); simpl; [rewrite Hc|]; auto.
Qed.

(** What [_save] does, by cases. *)
Lemma save_cases (leads : list lead) (w : world) :
  Ledger._save leads w
  = if negb (writable w) then (Raise OSError, w)
    else if forallb storable leads
         then (Return tt, rewritten (Text (Json (Records leads))) w)
         else (Raise UnicodeEncodeError, rewritten (Text NotJson) w).
Proof. reflexivity. Qed.

Section LedgerFacts.

Variable str_isdigit : N -> bool.

Let normalize := Ledger._normalize_phone str_isdigit.
Let same_phone := Ledger.same_phone str_isdigit.
Let add_lead := Ledger.add_lead str_isdigit.
Let check_lead := Ledger.check_lead str_isdigit.
Let update_lead := Ledger.update_lead str_isdigit.

Lemma normalize_encodable (phone : pystr) :
  encodable phone = true -> encodable (normalize phone) = true.
Proof.
  intros H. unfold normalize, Ledger._normalize_phone.
  destruct phone as [|c rest]; [reflexivity|].
  destruct (N.eqb c PLUS); [|now apply filter_encodable].
  cbn in H |- *. apply andb_true_iff in H as [_ H].
  now apply filter_encodable.
Qed.

Lemma same_phone_iff (norm : pystr) (l : lead) :
  same_phone norm l = true <-> normalize (Lead.phone l) = norm.
Proof. apply str_eqb_eq. Qed.

(** The scan of the three loops stops at the first lead with the key. *)
Lemma scan_hit (norm : pystr) (items : list lead) (r : lead) :
  In r items -> normalize (Lead.phone r) = norm ->
  exists pre l post,
    items = pre ++ l :: post /\
    normalize (Lead.phone l) = norm /\
    (forall x, In x pre -> normalize (Lead.phone x) <> norm) /\
    find (same_phone norm) items = Some l.
Proof.
  induction items as [|x items IH]; intros Hin Hr; [contradiction|].
  simpl. destruct (same_phone norm x) eqn:Hx.
  - exists [], x, items.
    split; [reflexivity|]. split; [now apply same_phone_iff|].
    split; [intros ? []|reflexivity].
  - assert (Hin' : In r items).
    { destruct Hin as [->|]; auto.
      apply same_phone_iff in Hr. unfold same_phone in *. congruence. }
    destruct (IH Hin' Hr) as (pre & l & post & -> & Hl & Hpre & Hfind).
    exists (x :: pre), l, post.
    split; [reflexivity|]. split; [assumption|]. split; [|assumption].
    intros y [<-|Hy]; auto.
    intros Habs. apply same_phone_iff in Habs. unfold same_phone in *. congruence.
Qed.

Lemma scan_miss (norm : pystr) (items : list lead) :
  (forall x, In x items -> normalize (Lead.phone x) <> norm) <->
  find (same_phone norm) items = None.
Proof.
  split.
  - intros H. destruct (find (same_phone norm) items) as [l|] eqn:Hf; auto.
    apply find_some in Hf as [Hin Hl]. apply same_phone_iff in Hl.
    now apply H in Hin.
  - intros Hf x Hin Hx. apply (find_none _ _ Hf) in Hin.
    apply same_phone_iff in Hx. unfold same_phone in *. congruence.
Qed.


(** What running an operation on a loaded list amounts to. *)
Lemma add_lead_unfold (w : world) (leads : list lead)
      (phone name source message : pystr) :
  Ledger._load w = (Return (Records leads), w) ->
  add_lead phone name source message w =
  match find (same_phone (normalize phone)) leads with
  | Some l =>
      (Return (lit "DUPLICATE: " ++ phone
                 ++ lit " already in tracker (added "
                 ++ Lead.date_added l ++ lit ")"), w)
  | None =>
      match Ledger._save
              (leads ++ [Ledger.new_lead phone (normalize phone) name source
                                         message (reading w (ticks w))
                                         (reading w (S (ticks w)))])
              (after_readings 2 w) with
      | (Return _, w') =>
          (Return (lit "OK: Added " ++ phone ++ lit " (" ++ name
                     ++ lit ") from " ++ source), w')
      | (Raise e, w') => (Raise e, w')
      end
  end.
Proof.
  intros Hload. unfold add_lead, Ledger.add_lead, bind. rewrite Hload.
  cbn [iterate ret].
  fold normalize. fold same_phone.
  destruct (find (same_phone (normalize phone)) leads); reflexivity.
Qed.

Lemma new_lead_storable (w : world) (phone name source message : pystr) :
  encodable phone = true -> encodable name = true ->
  encodable source = true -> encodable message = true ->
  storable (Ledger.new_lead phone (normalize phone) name source message
                            (reading w (ticks w)) (reading w (S (ticks w))))
  = true.
Proof.
  intros Hp Hn Hs Hm. unfold storable, Ledger.new_lead, reading.
  cbn [Lead.phone Lead.phone_normalized Lead.name Lead.source
       Lead.message_type Lead.status Lead.date_added Lead.date_updated
       Lead.notes].
  rewrite Hp, (normalize_encodable phone Hp), Hn, Hs, Hm,
    !isoformat_encodable.
  reflexivity.
Qed.

(** A successful add, from what makes it succeed. *)
Lemma add_lead_succeeds (w : world) (leads : list lead)
      (phone name source message : pystr) :
  Ledger._load w = (Return (Records leads), w) ->
  find (same_phone (normalize phone)) leads = None ->
  writable w = true ->
  forallb storable leads = true ->
  encodable phone = true -> encodable name = true ->
  encodable source = true -> encodable message = true ->
  add_lead phone name source message w
  = (Return (lit "OK: Added " ++ phone ++ lit " (" ++ name
               ++ lit ") from " ++ source),
     rewritten
       (Text (Json (Records
          (leads ++ [Ledger.new_lead phone (normalize phone) name source
                                     message (reading w (ticks w))
                                     (reading w (S (ticks w)))]))))
       (after_readings 2 w)).
Proof.
  intros Hload Hnone Hw Hleads Hp Hn Hs Hm.
  rewrite (add_lead_unfold _ _ _ _ _ _ Hload), Hnone, save_cases.
  cbn [after_readings writable]. rewrite Hw. cbn [negb].
  rewrite forallb_app, Hleads. cbn [forallb].
  rewrite (new_lead_storable w phone name source message Hp Hn Hs Hm).
  reflexivity.
Qed.

(** A successful add, from its answer. *)
Lemma add_lead_returned_ok (w : world) (leads : list lead)
      (phone name source message msg : pystr) (w' : world) :
  Ledger._load w = (Return (Records leads), w) ->
  add_lead phone name source message w = (Return msg, w') ->
  startswith msg (lit "OK") = true ->
  find (same_phone (normalize phone)) leads = None /\
  msg = lit "OK: Added " ++ phone ++ lit " (" ++ name
          ++ lit ") from " ++ source /\
  w' = rewritten
         (Text (Json (Records
            (leads ++ [Ledger.new_lead phone (normalize phone) name source
                                       message (reading w (ticks w))
                                       (reading w (S (ticks w)))]))))
         (after_readings 2 w).
Proof.
  intros Hload. rewrite (add_lead_unfold _ _ _ _ _ _ Hload).
  destruct (find (same_phone (normalize phone)) leads) as [l|].
  - intros H Hok. injection H as <- _. discriminate Hok.
  - rewrite save_cases.
    destruct (negb (writable (after_readings 2 w))); [discriminate|].
    destruct (forallb storable _); [|discriminate].
    intros H _. injection H as <- <-. repeat split.
Qed.


Lemma mutate_first_at (norm : pystr) (pre post : list lead) (l l' : lead) :
  (forall x, In x pre -> normalize (Lead.phone x) <> norm) ->
  normalize (Lead.phone l) = norm ->
  Ledger.mutate_first (same_phone norm) l' (pre ++ l :: post)
  = pre ++ l' :: post.
Proof.
  intros Hpre Hl. induction pre as [|x pre IH]; simpl.
  - apply same_phone_iff in Hl. now rewrite Hl.
  - destruct (same_phone norm x) eqn:Hx.
    + apply same_phone_iff in Hx. exfalso. apply (Hpre x); [now left|assumption].
    + f_equal. apply IH. intros y Hy. apply Hpre. now right.
Qed.

Lemma update_lead_unfold (w : world) (leads : list lead)
      (phone status notes : pystr) :
  Ledger._load w = (Return (Records leads), w) ->
  update_lead phone status notes w =
  match find (same_phone (normalize phone)) leads with
  | Some l =>
      let l1 := if truthy status then Ledger.set_status status l else l in
      let l2 := if truthy notes then Ledger.set_notes notes l1 else l1 in
      let l3 := Ledger.set_date_updated (reading w (ticks w)) l2 in
      match Ledger._save
              (Ledger.mutate_first (same_phone (normalize phone)) l3 leads)
              (after_readings 1 w) with
      | (Return _, w') =>
          (Return (lit "OK: Updated " ++ phone ++ lit " " ++ [RIGHT_ARROW]
                     ++ lit " status=" ++ Lead.status l3), w')
      | (Raise e, w') => (Raise e, w')
      end
  | None => (Return (lit "NOT_FOUND: " ++ phone), w)
  end.
Proof.
  intros Hload. unfold update_lead, Ledger.update_lead, bind. rewrite Hload.
  cbn [iterate ret].
  fold normalize. fold same_phone.
  destruct (find (same_phone (normalize phone)) leads); reflexivity.
Qed.

Lemma check_lead_unfold (w : world) (leads : list lead) (phone : pystr) :
  Ledger._load w = (Return (Records leads), w) ->
  check_lead phone w =
  match find (same_phone (normalize phone)) leads with
  | Some l =>
      (Return (lit "FOUND: " ++ Lead.phone l ++ lit " | " ++ Lead.name l
                 ++ lit " | status=" ++ Lead.status l
                 ++ lit " | source=" ++ Lead.source l
                 ++ lit " | added=" ++ Lead.date_added l), w)
  | None =>
      (Return (lit "NOT_FOUND: " ++ phone ++ lit " is not in the tracker "
                 ++ [EM_DASH] ++ lit " safe to contact"), w)
  end.
Proof.
  intros Hload. unfold check_lead, Ledger.check_lead, bind. rewrite Hload.
  cbn [iterate ret].
  fold normalize. fold same_phone.
  destruct (find (same_phone (normalize phone)) leads); reflexivity.
Qed.

(** The three assignments of [update_lead], field by field. *)
Lemma update_assignments (status notes t : pystr) (l : lead) :
  let l1 := if truthy status then Ledger.set_status status l else l in
  let l2 := if truthy notes then Ledger.set_notes notes l1 else l1 in
  let l' := Ledger.set_date_updated t l2 in
  (status <> [] -> Lead.status l' = status) /\
  (status = [] -> Lead.status l' = Lead.status l) /\
  (notes <> [] -> Lead.notes l' = notes) /\
  (notes = [] -> Lead.notes l' = Lead.notes l) /\
  Lead.date_updated l' = t /\
  created_with l' = created_with l.
Proof.
  cbv zeta.
  destruct status as [|c status], notes as [|c' notes]; cbn;
    repeat split; congruence.
Qed.

Lemma update_keeps_storable (status notes t : pystr) (l : lead) :
  storable l = true -> encodable status = true -> encodable notes = true ->
  encodable t = true ->
  storable (Ledger.set_date_updated
              t (if truthy notes
                 then Ledger.set_notes
                        notes (if truthy status
                               then Ledger.set_status status l else l)
                 else if truthy status
                      then Ledger.set_status status l else l)) = true.
Proof.
  unfold storable. intros Hl Hs Hn Ht.
  repeat (apply andb_true_iff in Hl as [Hl ?]).
  destruct (truthy status), (truthy notes); cbn;
    repeat (apply andb_true_iff; split); assumption.
Qed.

(** An update of a stored phone, up to the write. *)
Lemma update_lead_found (w : world) (leads : list lead)
      (phone status notes : pystr) (l : lead) :
  Ledger._load w = (Return (Records leads), w) ->
  find (same_phone (normalize phone)) leads = Some l ->
  exists (pre post : list lead) (l' : lead),
    leads = pre ++ l :: post /\
    (forall x, In x pre -> normalize (Lead.phone x) <> normalize phone) /\
    normalize (Lead.phone l) = normalize phone /\
    ((status <> [] -> Lead.status l' = status) /\
     (status = [] -> Lead.status l' = Lead.status l) /\
     (notes <> [] -> Lead.notes l' = notes) /\
     (notes = [] -> Lead.notes l' = Lead.notes l) /\
     Lead.date_updated l' = reading w (ticks w) /\
     created_with l' = created_with l) /\
    (storable l = true -> encodable status = true ->
     encodable notes = true -> storable l' = true) /\
    update_lead phone status notes w
    = match Ledger._save (pre ++ l' :: post) (after_readings 1 w) with
      | (Return _, w') =>
          (Return (lit "OK: Updated " ++ phone ++ lit " " ++ [RIGHT_ARROW]
                     ++ lit " status=" ++ Lead.status l'), w')
      | (Raise e, w') => (Raise e, w')
      end.
Proof.
  intros Hload Hfind.
  assert (Hl : normalize (Lead.phone l) = normalize phone).
  { apply find_some in Hfind as [_ Hl]. now apply same_phone_iff in Hl. }
  assert (Hin : In l leads) by (now apply find_some in Hfind).
  destruct (scan_hit _ _ _ Hin Hl)
    as (pre & l0 & post & Hsplit & Hl0 & Hpre & Hfind0).
  assert (l0 = l) by congruence. subst l0.
  rewrite (update_lead_unfold _ _ _ _ _ Hload), Hfind. cbv zeta.
  subst leads. rewrite (mutate_first_at _ _ _ _ _ Hpre Hl).
  exists pre, post. eexists.
  split; [reflexivity|]. split; [exact Hpre|]. split; [exact Hl|].
  split; [exact (update_assignments status notes (reading w (ticks w)) l)|].
  split; [|reflexivity].
  intros Hs Hst Hn. apply update_keeps_storable; auto.
  apply isoformat_encodable.
Qed.

Lemma forallb_middle (pre post : list lead) (l l' : lead) :
  forallb storable (pre ++ l :: post) = true -> storable l' = true ->
  forallb storable (pre ++ l' :: post) = true.
Proof.
  rewrite !forallb_app. cbn [forallb]. intros H Hl'.
  apply andb_true_iff in H as [Hpre H]. apply andb_true_iff in H as [_ Hpost].
  now rewrite Hpre, Hl', Hpost.
Qed.

Lemma forallb_at (pre post : list lead) (l : lead) :
  forallb storable (pre ++ l :: post) = true -> storable l = true.
Proof.
  rewrite forallb_app. cbn [forallb]. intros H.
  apply andb_true_iff in H as [_ H]. now apply andb_true_iff in H as [H _].
Qed.

(** C7, as the code has it. On a ledger with a record that has the
    comparison key of [phone], in a file that can be written, and with no
    lone surrogate in the stored strings or in the status and notes
    supplied, [update_lead] changes the first such record only: its status
    becomes the supplied status when that is non-empty and stays otherwise,
    likewise its notes, its [date_updated] becomes the reading of the
    clock, the six other fields and all other records stay, the list is
    written, and the answer quotes the resulting status.  With no such
    record the answer is NOT_FOUND and the world is untouched. *)
Theorem update_lead_frame
        (w : world) (leads : list lead) (phone status notes : pystr) :
  Ledger._load w = (Return (Records leads), w) ->
  ((exists r, In r leads /\ normalize (Lead.phone r) = normalize phone) ->
   writable w = true ->
   forallb storable leads = true ->
   encodable status = true -> encodable notes = true ->
   exists pre l post l' w',
     leads = pre ++ l :: post /\
     (forall x, In x pre -> normalize (Lead.phone x) <> normalize phone) /\
     normalize (Lead.phone l) = normalize phone /\
     (status <> [] -> Lead.status l' = status) /\
     (status = [] -> Lead.status l' = Lead.status l) /\
     (notes <> [] -> Lead.notes l' = notes) /\
     (notes = [] -> Lead.notes l' = Lead.notes l) /\
     Lead.date_updated l' = reading w (ticks w) /\
     Lead.phone l' = Lead.phone l /\
     Lead.phone_normalized l' = Lead.phone_normalized l /\
     Lead.name l' = Lead.name l /\
     Lead.source l' = Lead.source l /\
     Lead.message_type l' = Lead.message_type l /\
     Lead.date_added l' = Lead.date_added l /\
     update_lead phone status notes w =
     (Return (lit "OK: Updated " ++ phone ++ lit " " ++ [RIGHT_ARROW]
                ++ lit " status=" ++ Lead.status l'), w') /\
     disk w' = Text (Json (Records (pre ++ l' :: post))) /\
     writes w' = S (writes w))
  /\
  ((forall r, In r leads -> normalize (Lead.phone r) <> normalize phone) ->
   update_lead phone status notes w
   = (Return (lit "NOT_FOUND: " ++ phone), w)).
Proof.
  intros Hload. split.
  - intros (r & Hin & Hr) Hw Hleads Hstatus Hnotes.
    destruct (scan_hit _ _ _ Hin Hr) as (_ & l & _ & _ & _ & _ & Hfind).
    destruct (update_lead_found w leads phone status notes l Hload Hfind)
      as (pre & post & l' & Hsplit & Hpre & Hl & Hfields & Hstor & Hupd).
    destruct Hfields as (Hs1 & Hs2 & Hn1 & Hn2 & Hdate & Hcreated).
    unfold created_with in Hcreated.
    injection Hcreated as Hphone Hnorm Hname Hsource Htype Hadded.
    subst leads.
    assert (Hl' : storable l' = true)
      by (apply Hstor; [exact (forallb_at _ _ _ Hleads)|assumption|assumption]).
    rewrite save_cases in Hupd. cbn [after_readings writable] in Hupd.
    rewrite Hw, (forallb_middle _ _ _ _ Hleads Hl') in Hupd. cbn [negb] in Hupd.
    exists pre, l, post, l'. eexists.
    split; [reflexivity|]. split; [exact Hpre|]. split; [exact Hl|].
    split; [exact Hs1|]. split; [exact Hs2|]. split; [exact Hn1|].
    split; [exact Hn2|]. split; [exact Hdate|].
    split; [exact Hphone|]. split; [exact Hnorm|]. split; [exact Hname|].
    split; [exact Hsource|]. split; [exact Htype|]. split; [exact Hadded|].
    split; [exact Hupd|]. split; reflexivity.
  - intros Hnone. apply scan_miss in Hnone.
    now rewrite (update_lead_unfold _ _ _ _ _ Hload), Hnone.
Qed.

(** C10, as the code has it. With both [status] and [notes] empty,
    [update_lead] on a ledger that has the key, in a file that can be
    written and with no lone surrogate in the stored strings, still
    answers OK with the status the record had, leaves status and notes as
    they were, sets [date_updated] to the reading of the clock and writes
    the file again: the world is not the one it started from. *)
Theorem update_lead_empty_is_a_write
        (w : world) (leads : list lead) (phone : pystr) :
  Ledger._load w = (Return (Records leads), w) ->
  (exists r, In r leads /\ normalize (Lead.phone r) = normalize phone) ->
  writable w = true ->
  forallb storable leads = true ->
  exists pre l post l' w',
    leads = pre ++ l :: post /\
    (forall x, In x pre -> normalize (Lead.phone x) <> normalize phone) /\
    normalize (Lead.phone l) = normalize phone /\
    l' = Ledger.set_date_updated (reading w (ticks w)) l /\
    Lead.status l' = Lead.status l /\
    Lead.notes l' = Lead.notes l /\
    Lead.date_updated l' = reading w (ticks w) /\
    update_lead phone [] [] w =
    (Return (lit "OK: Updated " ++ phone ++ lit " " ++ [RIGHT_ARROW]
               ++ lit " status=" ++ Lead.status l), w') /\
    disk w' = Text (Json (Records (pre ++ l' :: post))) /\
    writes w' = S (writes w) /\
    w' <> w.
Proof.
  intros Hload (r & Hin & Hr) Hw Hleads.
  destruct (scan_hit _ _ _ Hin Hr) as (pre & l & post & Hsplit & Hl & Hpre & Hfind).
  rewrite (update_lead_unfold _ _ _ _ _ Hload), Hfind. cbn [truthy]. cbv zeta.
  subst leads. rewrite (mutate_first_at _ _ _ _ _ Hpre Hl).
  assert (Hl' : storable (Ledger.set_date_updated (reading w (ticks w)) l) = true).
  { apply (update_keeps_storable [] [] (reading w (ticks w)) l);
      [exact (forallb_at _ _ _ Hleads)|reflexivity|reflexivity
      |apply isoformat_encodable]. }
  rewrite save_cases. cbn [after_readings writable].
  rewrite Hw, (forallb_middle _ _ _ _ Hleads Hl'). cbn [negb].
  exists pre, l, post. do 2 eexists.
  split; [reflexivity|]. split; [exact Hpre|]. split; [exact Hl|].
  split; [reflexivity|].
  repeat match goal with
         | |- _ /\ _ => split
         end; try reflexivity.
  intros Habs. apply (f_equal writes) in Habs. simpl in Habs.
  symmetry in Habs. now apply n_Sn in Habs.
Qed.

(** C9, as the code has it. An add that meets no stored record with the
    key, in a file that can be written and with no lone surrogate among
    the strings to be written, succeeds; and every add that succeeds has
    appended one record whose status is "contacted", whose [date_added] is
    one reading of the clock and whose [date_updated] is the next reading,
    and has written the whole list, the new record last.  The two dates
    are equal exactly when the two readings are. *)
Theorem add_lead_creates
        (w : world) (leads : list lead) (phone name source message : pystr) :
  Ledger._load w = (Return (Records leads), w) ->
  ((forall r, In r leads -> normalize (Lead.phone r) <> normalize phone) ->
   writable w = true ->
   forallb storable leads = true ->
   encodable phone = true -> encodable name = true ->
   encodable source = true -> encodable message = true ->
   exists w',
     add_lead phone name source message w =
     (Return (lit "OK: Added " ++ phone ++ lit " (" ++ name
                ++ lit ") from " ++ source), w'))
  /\
  (forall msg w',
      add_lead phone name source message w = (Return msg, w') ->
      startswith msg (lit "OK") = true ->
      exists r,
        msg = lit "OK: Added " ++ phone ++ lit " (" ++ name
                ++ lit ") from " ++ source /\
        disk w' = Text (Json (Records (leads ++ [r]))) /\
        writes w' = S (writes w) /\
        Lead.status r = lit "contacted" /\
        Lead.date_added r = reading w (ticks w) /\
        Lead.date_updated r = reading w (S (ticks w)) /\
        (Lead.date_added r = Lead.date_updated r <->
         reading w (ticks w) = reading w (S (ticks w))) /\
        Lead.phone r = phone /\
        Lead.phone_normalized r = normalize phone /\
        Lead.name r = name /\
        Lead.source r = source /\
        Lead.message_type r = message /\
        Lead.notes r = []).
Proof.
  intros Hload. split.
  - intros Hnone Hw Hleads Hp Hn Hs Hm. apply scan_miss in Hnone.
    eexists.
    exact (add_lead_succeeds w leads phone name source message
                             Hload Hnone Hw Hleads Hp Hn Hs Hm).
  - intros msg w' Hadd Hok.
    destruct (add_lead_returned_ok w leads phone name source message msg w'
                                   Hload Hadd Hok) as (_ & -> & ->).
    eexists. split; [reflexivity|]. split; [reflexivity|].
    repeat match goal with
           | |- _ /\ _ => split
           end; try reflexivity; auto.
Qed.

(** C2, as the code has it. The comparison key of a phone is made of the
    characters of the input for which [str.isdigit] holds, in order, after
    a single '+' exactly when the input starts with '+'; and check, add
    and update treat a phone as a stored contact exactly when some stored
    record's phone has the same key: check answers FOUND and add answers
    DUPLICATE exactly then, update answers NOT_FOUND exactly when there is
    none, and answers OK exactly then wherever its write can succeed. *)
Theorem normalize_phone_is_the_key
        (w : world) (leads : list lead)
        (phone name source message status notes : pystr) :
  str_isdigit PLUS = false ->
  Ledger._load w = (Return (Records leads), w) ->
  normalize phone
  = (if startswith phone [PLUS] then [PLUS] else [])
      ++ filter str_isdigit phone
  /\
  ((exists r, In r leads /\ normalize (Lead.phone r) = normalize phone) <->
   (exists msg w', check_lead phone w = (Return msg, w') /\
                   startswith msg (lit "FOUND") = true))
  /\
  ((exists r, In r leads /\ normalize (Lead.phone r) = normalize phone) <->
   (exists msg w', add_lead phone name source message w = (Return msg, w') /\
                   startswith msg (lit "DUPLICATE") = true))
  /\
  ((forall r, In r leads -> normalize (Lead.phone r) <> normalize phone) <->
   (exists msg w', update_lead phone status notes w = (Return msg, w') /\
                   startswith msg (lit "NOT_FOUND") = true))
  /\
  (writable w = true -> forallb storable leads = true ->
   encodable status = true -> encodable notes = true ->
   ((exists r, In r leads /\ normalize (Lead.phone r) = normalize phone) <->
    (exists msg w', update_lead phone status notes w = (Return msg, w') /\
                    startswith msg (lit "OK") = true))).
Proof.
  intros Hplus Hload.
  split.
  { unfold normalize, Ledger._normalize_phone.
    destruct phone as [|c rest]; [reflexivity|].
    cbn [startswith]. destruct (N.eqb_spec c PLUS) as [->|Hc]; cbn [andb].
    - destruct rest; cbn [filter]; rewrite Hplus; reflexivity.
    - reflexivity. }
  destruct (find (same_phone (normalize phone)) leads) as [l|] eqn:Hfind.
  - assert (Hkey : exists r, In r leads /\
                             normalize (Lead.phone r) = normalize phone).
    { apply find_some in Hfind as [Hin Hl]. exists l.
      split; [assumption|now apply same_phone_iff]. }
    assert (Hnot : ~ forall r, In r leads ->
                               normalize (Lead.phone r) <> normalize phone).
    { intros H. destruct Hkey as (r & Hin & Hr). exact (H r Hin Hr). }
    destruct (update_lead_found w leads phone status notes l Hload Hfind)
      as (pre & post & l' & Hsplit & _ & _ & _ & Hstor & Hupd).
    split; [|split; [|split]].
    + rewrite (check_lead_unfold _ _ _ Hload), Hfind.
      split; intros _; [do 2 eexists; split; reflexivity|exact Hkey].
    + rewrite (add_lead_unfold _ _ _ _ _ _ Hload), Hfind.
      split; intros _; [do 2 eexists; split; reflexivity|exact Hkey].
    + split; [intros H; contradiction|].
      intros (msg & w' & Heq & Hpre). exfalso.
      rewrite Hupd in Heq. destruct (Ledger._save _ _) as [[u|e] w1].
      * injection Heq as <- _. discriminate Hpre.
      * discriminate Heq.
    + intros Hw Hleads Hstatus Hnotes.
      split; [intros _|intros _; exact Hkey].
      subst leads.
      assert (Hl' : storable l' = true)
        by (apply Hstor; [exact (forallb_at _ _ _ Hleads)|assumption|assumption]).
      rewrite save_cases in Hupd. cbn [after_readings writable] in Hupd.
      rewrite Hw, (forallb_middle _ _ _ _ Hleads Hl') in Hupd.
      cbn [negb] in Hupd. rewrite Hupd.
      do 2 eexists. split; reflexivity.
  - assert (Hnone : forall r, In r leads ->
                              normalize (Lead.phone r) <> normalize phone)
      by (now apply scan_miss).
    assert (Hnokey : ~ exists r, In r leads /\
                                 normalize (Lead.phone r) = normalize phone).
    { intros (r & Hin & Hr). exact (Hnone r Hin Hr). }
    split; [|split; [|split]].
    + rewrite (check_lead_unfold _ _ _ Hload), Hfind.
      split; [intros H; contradiction|].
      intros (msg & w' & Heq & Hpre). injection Heq as <- _. discriminate Hpre.
    + rewrite (add_lead_unfold _ _ _ _ _ _ Hload), Hfind.
      split; [intros H; contradiction|].
      intros (msg & w' & Heq & Hpre). exfalso.
      destruct (Ledger._save _ _) as [[u|e] w1].
      * injection Heq as <- _. discriminate Hpre.
      * discriminate Heq.
    + rewrite (update_lead_unfold _ _ _ _ _ Hload), Hfind.
      split; intros _; [do 2 eexists; split; reflexivity|exact Hnone].
    + intros _ _ _ _.
      rewrite (update_lead_unfold _ _ _ _ _ Hload), Hfind.
      split; [intros H; contradiction|].
      intros (msg & w' & Heq & Hpre). injection Heq as <- _. discriminate Hpre.
Qed.

End LedgerFacts.


(** ** The dispatch tool *)

Section DispatchFacts.

Variable re_digit : N -> bool.

Let execute := Dispatch.execute re_digit.
Let jid_of := Dispatch._phone_to_jid re_digit.

(** Past the two validation tests, [execute] is the import test followed
    by the exchange with the bridge. *)
Lemma execute_valid (self : Dispatch.tool) (env : Dispatch.bridge)
      (phone message : pystr) :
  phone <> [] -> message <> [] ->
  7 <= List.length (filter re_digit phone) <= 15 ->
  execute self env phone message =
  if negb (Dispatch.websockets_installed env) then
    (lit "Error: 'websockets' package required. Install: pip install websockets", [])
  else
    match Dispatch.exchange self env phone message (jid_of phone) with
    | (inr result, done) => (result, done)
    | (inl e, done) => (Dispatch.handlers self e, done)
    end.
Proof.
  intros Hp Hm [Hlo Hhi].
  unfold execute, Dispatch.execute, Dispatch._normalize_phone.
  destruct phone as [|c p]; [congruence|].
  destruct message as [|c' m]; [congruence|].
  cbn [truthy negb orb].
  destruct (Nat.ltb_spec (List.length (filter re_digit (c :: p))) 7); [lia|].
  destruct (Nat.ltb_spec 15 (List.length (filter re_digit (c :: p)))); [lia|].
  reflexivity.
Qed.

(** Every way through the import test and the exchange, case by case. *)
Ltac through_exchange env :=
  unfold Dispatch.exchange, Dispatch.confirmation, Dispatch.wait_for,
    Dispatch.handlers;
  destruct (Dispatch.websockets_installed env) eqn:?; cbn [negb];
  [ destruct (Dispatch.connect_fails env) as [[[] ?]|] eqn:?;
    [ | | |
      destruct (Dispatch.send_fails env) as [[[] ?]|] eqn:?;
      [ | | |
        destruct (Dispatch.answer env) as [? [?|?|?]| |[[] ?]] eqn:?;
        [ destruct (Qle_bool Dispatch.CONFIRM_TIMEOUT _) eqn:?
        | destruct (Qle_bool Dispatch.CONFIRM_TIMEOUT _) eqn:?
        | destruct (Qle_bool Dispatch.CONFIRM_TIMEOUT _) eqn:?;
          [ | destruct (Dispatch.equals_str _ (lit "sent")) eqn:?;
              [ | destruct (Dispatch.equals_str _ (lit "error")) eqn:? ] ]
        | | | | ] ] ]
  | ];
  cbn [Dispatch.exc_kind Dispatch.exc_text fst snd].

Lemma past_validation_no_validation_error
      (self : Dispatch.tool) (env : Dispatch.bridge)
      (phone message jid : pystr) (r : pystr * list Dispatch.action) :
  r = (if negb (Dispatch.websockets_installed env) then
         (lit "Error: 'websockets' package required. Install: pip install websockets", [])
       else
         match Dispatch.exchange self env phone message jid with
         | (inr result, done) => (result, done)
         | (inl e, done) => (Dispatch.handlers self e, done)
         end) ->
  startswith (fst r) (lit "Error: Both") = false /\
  startswith (fst r) (lit "Error: Invalid") = false.
Proof.
  intros ->. through_exchange env; split; reflexivity.
Qed.

Lemma equals_str_iff (v : option Dispatch.jvalue) (s : pystr) :
  Dispatch.equals_str v s = true <-> v = Some (Dispatch.JStr s).
Proof.
  destruct v as [[t|t]|]; simpl; split; try discriminate.
  - intros H. apply str_eqb_eq in H. congruence.
  - intros H. injection H as ->. apply str_eqb_refl.
Qed.

(** C3. [execute] answers with one of its two validation errors, having
    done nothing on the network, exactly when the phone is empty, or the
    message is empty, or the phone has fewer than 7 or more than 15
    decimal digits; so 6 and 16 digits are refused, 7 and 15 are not. *)
Theorem execute_validates
        (self : Dispatch.tool) (env : Dispatch.bridge)
        (phone message : pystr) :
  let r := execute self env phone message in
  let n := List.length (filter re_digit phone) in
  let refused :=
    (startswith (fst r) (lit "Error: Both")
     || startswith (fst r) (lit "Error: Invalid")) = true /\ snd r = [] in
  (refused <-> phone = [] \/ message = [] \/ n < 7 \/ 15 < n) /\
  (phone = [] \/ message = [] ->
   r = (lit "Error: Both 'phone' and 'message' are required.", [])) /\
  (phone <> [] -> message <> [] -> n < 7 \/ 15 < n ->
   r = (lit "Error: Invalid phone number '" ++ phone ++ lit "' "
          ++ [EM_DASH] ++ lit " must be 7-15 digits with country code.",
        [])) /\
  (n = 6 \/ n = 16 -> refused) /\
  (message <> [] -> n = 7 \/ n = 15 -> ~ refused).
Proof.
  intros r n refused.
  assert (Hempty : phone = [] \/ message = [] ->
                   r = (lit "Error: Both 'phone' and 'message' are required.", [])).
  { subst r. unfold execute, Dispatch.execute.
    destruct phone; [reflexivity|]. destruct message; [reflexivity|].
    intros [H|H]; discriminate H. }
  assert (Hrange : phone <> [] -> message <> [] -> n < 7 \/ 15 < n ->
                   r = (lit "Error: Invalid phone number '" ++ phone ++ lit "' "
                          ++ [EM_DASH]
                          ++ lit " must be 7-15 digits with country code.",
                        [])).
  { subst r n. unfold execute, Dispatch.execute, Dispatch._normalize_phone.
    destruct phone as [|c p]; [congruence|].
    destruct message as [|c' m]; [congruence|].
    intros _ _ Hn. cbn [truthy negb orb].
    destruct (Nat.ltb_spec (List.length (filter re_digit (c :: p))) 7);
      [reflexivity|].
    destruct (Nat.ltb_spec 15 (List.length (filter re_digit (c :: p))));
      [reflexivity|lia]. }
  assert (Hiff : refused <-> phone = [] \/ message = [] \/ n < 7 \/ 15 < n).
  { split.
    - intros [Hpre _].
      destruct phone as [|c p]; [now left|].
      destruct message as [|c' m]; [right; now left|].
      destruct (Nat.lt_ge_cases n 7) as [|Hlo]; [right; right; now left|].
      destruct (Nat.lt_ge_cases 15 n) as [|Hhi]; [right; right; now right|].
      exfalso.
      assert (Hr : r = execute self env (c :: p) (c' :: m)) by reflexivity.
      rewrite execute_valid in Hr by (discriminate || (split; assumption)).
      destruct (past_validation_no_validation_error _ _ _ _ _ _ Hr) as [H1 H2].
      rewrite H1, H2 in Hpre. discriminate.
    - intros H.
      destruct phone as [|c p].
      { unfold refused. rewrite Hempty by now left. split; reflexivity. }
      destruct message as [|c' m].
      { unfold refused. rewrite Hempty by now right. split; reflexivity. }
      destruct H as [H|[H|H]]; try discriminate.
      unfold refused. rewrite Hrange by (assumption || discriminate).
      split; reflexivity. }
  split; [exact Hiff|]. split; [exact Hempty|]. split; [exact Hrange|].
  split.
  - intros H. apply Hiff. right. right. lia.
  - intros Hm H Href. apply Hiff in Href.
    destruct Href as [->|[->|Hn]].
    + subst n. simpl in H. lia.
    + congruence.
    + lia.
Qed.

(** C8. Whenever the phone and the message pass validation, the requests
    put on the wire are: the single object with "type" "send", "to" the
    decimal digits of the phone followed by "@s.whatsapp.net", and "text"
    the message as given, once the connection is open; and none when the
    connection is not opened. *)
Theorem execute_sends_one_request
        (self : Dispatch.tool) (env : Dispatch.bridge)
        (phone message : pystr) :
  phone <> [] -> message <> [] ->
  7 <= List.length (filter re_digit phone) <= 15 ->
  let request := [(lit "type", lit "send");
                  (lit "to", filter re_digit phone ++ lit "@s.whatsapp.net");
                  (lit "text", message)] in
  let sent := Dispatch.requests (snd (execute self env phone message)) in
  (Dispatch.websockets_installed env = true ->
   Dispatch.connect_fails env = None -> sent = [request]) /\
  (Dispatch.websockets_installed env = false \/
   Dispatch.connect_fails env <> None -> sent = []).
Proof.
  intros Hp Hm Hn request sent. subst sent.
  rewrite (execute_valid self env phone message Hp Hm Hn).
  unfold Dispatch.exchange, jid_of, Dispatch._phone_to_jid.
  destruct (Dispatch.websockets_installed env); cbn [negb].
  - destruct (Dispatch.connect_fails env) as [e|].
    + split; [discriminate|]. intros _. reflexivity.
    + split.
      * intros _ _.
        destruct (Dispatch.send_fails env) as [e|]; [reflexivity|].
        destruct (Dispatch.confirmation env phone _); reflexivity.
      * intros [H|H]; [discriminate|congruence].
  - split; [discriminate|reflexivity].
Qed.

Lemma late_means_timeout (after : Q) :
  (Dispatch.CONFIRM_TIMEOUT <= after)%Q ->
  Qle_bool Dispatch.CONFIRM_TIMEOUT after = true.
Proof. apply Qle_bool_iff. Qed.

Lemma in_time_means_delivered (after : Q) :
  (after < Dispatch.CONFIRM_TIMEOUT)%Q <->
  Qle_bool Dispatch.CONFIRM_TIMEOUT after = false.
Proof.
  split.
  - intros H. destruct (Qle_bool Dispatch.CONFIRM_TIMEOUT after) eqn:E; auto.
    apply Qle_bool_iff in E. now apply Qlt_not_le in H.
  - intros H. apply Qnot_le_lt. intros E. apply Qle_bool_iff in E. congruence.
Qed.

(** C5. When a valid request has been sent and no message of the bridge
    is there before the 15 seconds of the timeout are over, [execute]
    returns its "Warning: ..." line, after one connect, one send and one
    bounded wait.  That line is none of the lines of a confirmed dispatch
    or of a bridge error, and it starts neither with "OK" nor with
    "Error". *)
Theorem execute_timeout_is_a_warning
        (self : Dispatch.tool) (env : Dispatch.bridge)
        (phone message : pystr) :
  phone <> [] -> message <> [] ->
  7 <= List.length (filter re_digit phone) <= 15 ->
  Dispatch.websockets_installed env = true ->
  Dispatch.connect_fails env = None ->
  Dispatch.send_fails env = None ->
  (Dispatch.answer env = Dispatch.Silent \/
   exists after f, Dispatch.answer env = Dispatch.Arrives after f /\
                   (15 <= after)%Q) ->
  let r := execute self env phone message in
  fst r = lit "Warning: Message sent but no confirmation received (timeout). Check bridge logs." /\
  snd r = [Dispatch.Connect (Dispatch.bridge_url self);
           Dispatch.Send [(lit "type", lit "send");
                          (lit "to", jid_of phone);
                          (lit "text", message)];
           Dispatch.Recv 15%Q] /\
  startswith (fst r) (lit "Warning:") = true /\
  startswith (fst r) (lit "OK") = false /\
  startswith (fst r) (lit "Error") = false /\
  (forall p j, fst r <> lit "OK: Message sent to " ++ p ++ lit " (" ++ j
                          ++ lit ")") /\
  (forall p j, fst r <> lit "OK: Message dispatched to " ++ p ++ lit " ("
                          ++ j ++ lit ")") /\
  (forall reason, fst r <> lit "Error from bridge: " ++ reason).
Proof.
  intros Hp Hm Hn Hws Hconn Hsend Hanswer r.
  assert (Hr : r = (lit "Warning: Message sent but no confirmation received (timeout). Check bridge logs.",
                    [Dispatch.Connect (Dispatch.bridge_url self);
                     Dispatch.Send [(lit "type", lit "send");
                                    (lit "to", jid_of phone);
                                    (lit "text", message)];
                     Dispatch.Recv 15%Q])).
  { subst r. rewrite (execute_valid self env phone message Hp Hm Hn).
    unfold Dispatch.exchange, Dispatch.confirmation, Dispatch.wait_for.
    rewrite Hws, Hconn, Hsend. cbn [negb].
    destruct Hanswer as [->|(after & f & -> & Hlate)].
    - reflexivity.
    - rewrite (late_means_timeout after Hlate). reflexivity. }
  rewrite Hr. cbn [fst snd].
  repeat match goal with
         | |- _ /\ _ => split
         end; try reflexivity.
  all: intros; intros H; apply (f_equal (@hd N 0%N)) in H;
    vm_compute in H; discriminate H.
Qed.

Lemma bridge_error_needs_error_reply
      (self : Dispatch.tool) (env : Dispatch.bridge)
      (phone message : pystr) :
  phone <> [] -> message <> [] ->
  7 <= List.length (filter re_digit phone) <= 15 ->
  startswith (fst (execute self env phone message))
             (lit "Error from bridge: ") = true ->
  exists after response,
    Dispatch.answer env = Dispatch.Arrives after (Dispatch.Object response) /\
    (after < 15)%Q /\
    Dispatch.get response (lit "type") = Some (Dispatch.JStr (lit "error")).
Proof.
  intros Hp Hm Hn. rewrite (execute_valid self env phone message Hp Hm Hn).
  through_exchange env; intros H;
    try (vm_compute in H; discriminate H).
  do 2 eexists. split; [reflexivity|].
  split; [apply in_time_means_delivered; eassumption
         |apply equals_str_iff; eassumption].
Qed.

(** C6. When the reply to a valid request is a JSON object that comes
    before the timeout: with a "type" that is neither "sent" nor "error"
    (or with none) [execute] returns the "OK: Message dispatched" line;
    with "type" "error" it returns "Error from bridge: " followed by the
    value of "error", or by "unknown" when there is none.  And whatever
    the bridge does, the "Error from bridge" line is returned only for a
    timely object whose "type" is "error". *)
Theorem execute_classifies_reply
        (self : Dispatch.tool) (env : Dispatch.bridge)
        (phone message : pystr)
        (after : Q) (response : list (pystr * Dispatch.jvalue)) :
  phone <> [] -> message <> [] ->
  7 <= List.length (filter re_digit phone) <= 15 ->
  Dispatch.websockets_installed env = true ->
  Dispatch.connect_fails env = None ->
  Dispatch.send_fails env = None ->
  Dispatch.answer env = Dispatch.Arrives after (Dispatch.Object response) ->
  (after < 15)%Q ->
  let r := fst (execute self env phone message) in
  let type := Dispatch.get response (lit "type") in
  (type <> Some (Dispatch.JStr (lit "sent")) ->
   type <> Some (Dispatch.JStr (lit "error")) ->
   r = lit "OK: Message dispatched to " ++ phone ++ lit " ("
         ++ jid_of phone ++ lit ")" /\
   startswith r (lit "OK") = true /\
   startswith r (lit "Error") = false) /\
  (type = Some (Dispatch.JStr (lit "error")) ->
   r = lit "Error from bridge: "
         ++ match Dispatch.get response (lit "error") with
            | Some v => Dispatch.show v
            | None => lit "unknown"
            end) /\
  (startswith r (lit "Error from bridge: ") = true <->
   type = Some (Dispatch.JStr (lit "error"))) /\
  (forall env' : Dispatch.bridge,
      startswith (fst (execute self env' phone message))
                 (lit "Error from bridge: ") = true ->
      exists after' response',
        Dispatch.answer env'
        = Dispatch.Arrives after' (Dispatch.Object response') /\
        (after' < 15)%Q /\
        Dispatch.get response' (lit "type")
        = Some (Dispatch.JStr (lit "error"))).
Proof.
  intros Hp Hm Hn Hws Hconn Hsend Hanswer Hintime r type.
  assert (Hr : r =
               if Dispatch.equals_str type (lit "sent") then
                 lit "OK: Message sent to " ++ phone ++ lit " ("
                   ++ jid_of phone ++ lit ")"
               else if Dispatch.equals_str type (lit "error") then
                 lit "Error from bridge: "
                   ++ match Dispatch.get response (lit "error") with
                      | Some v => Dispatch.show v
                      | None => lit "unknown"
                      end
               else
                 lit "OK: Message dispatched to " ++ phone ++ lit " ("
                   ++ jid_of phone ++ lit ")").
  { subst r type. rewrite (execute_valid self env phone message Hp Hm Hn).
    unfold Dispatch.exchange, Dispatch.confirmation, Dispatch.wait_for.
    rewrite Hws, Hconn, Hsend, Hanswer. cbn [negb].
    apply in_time_means_delivered in Hintime. rewrite Hintime.
    destruct (Dispatch.equals_str _ (lit "sent")); [reflexivity|].
    destruct (Dispatch.equals_str _ (lit "error")); reflexivity. }
  assert (Honly := fun env' =>
                     bridge_error_needs_error_reply self env' phone message
                                                    Hp Hm Hn).
  destruct (Dispatch.equals_str type (lit "sent")) eqn:Esent;
    destruct (Dispatch.equals_str type (lit "error")) eqn:Eerr.
  - apply equals_str_iff in Esent. apply equals_str_iff in Eerr.
    rewrite Esent in Eerr. vm_compute in Eerr. discriminate Eerr.
  - apply equals_str_iff in Esent. rewrite Hr.
    split; [intros H; contradiction|].
    split; [intros H; rewrite Esent in H; vm_compute in H; discriminate H|].
    split; [|exact Honly].
    split; intros H.
    + vm_compute in H; discriminate H.
    + rewrite Esent in H; vm_compute in H; discriminate H.
  - apply equals_str_iff in Eerr. rewrite Hr.
    split; [intros _ H; contradiction|].
    split; [reflexivity|].
    split; [|exact Honly].
    split; intros _; [exact Eerr|apply startswith_app].
  - rewrite Hr.
    split; [intros _ _; repeat split; reflexivity|].
    split; [intros H; apply equals_str_iff in H; congruence|].
    split; [|exact Honly].
    split; intros H.
    + vm_compute in H; discriminate H.
    + apply equals_str_iff in H; congruence.
Qed.

End DispatchFacts.

(** ** Worked examples *)

(** The self-test of lead_tracker.py passes on the model. *)
Example run_tests_pass :
  fst (Ledger.run_tests Latin1.isdigit Scenario.fresh) = Return true.
Proof. vm_compute. reflexivity. Qed.

Example normalize_keeps_leading_plus :
  Ledger._normalize_phone Latin1.isdigit (lit "+1 234-567-890")
  = lit "+1234567890".
Proof. vm_compute. reflexivity. Qed.

Example normalize_without_plus :
  Ledger._normalize_phone Latin1.isdigit (lit "(44) 20 7946 0958")
  = lit "442079460958".
Proof. vm_compute. reflexivity. Qed.

(** With and without '+' the keys differ, so the ledger holds both. *)
Example plus_makes_another_key :
  Ledger._normalize_phone Latin1.isdigit (lit "+1 234-567-890")
  <> Ledger._normalize_phone Latin1.isdigit (lit "1234567890").
Proof. vm_compute. discriminate. Qed.

(** The ledger and the dispatch tool do not agree on superscript digits. *)
Example digit_classes_differ :
  Ledger._normalize_phone Latin1.isdigit [Scenario.SUPERSCRIPT_TWO]
  = [Scenario.SUPERSCRIPT_TWO] /\
  Dispatch._normalize_phone Latin1.decimal [Scenario.SUPERSCRIPT_TWO] = [].
Proof. split; reflexivity. Qed.

Example jid_drops_plus :
  Dispatch._phone_to_jid Latin1.decimal (lit "+1 234-567-890")
  = lit "1234567890@s.whatsapp.net".
Proof. vm_compute. reflexivity. Qed.

Example list_leads_stocked :
  fst (Ledger.list_leads [] Scenario.stocked)
  = Return (lit "Total: 2 leads" ++ [Ledger.NL; Ledger.NL]
              ++ lit "1. (44) 20 7946 0958 | Ann | status=responded | source=forum | 2023-12-30T08:00:00.250000+00:00"
              ++ [Ledger.NL]
              ++ lit "2. +1234567890 | Joe's Pizza | status=contacted | source=reddit | 2023-12-31T09:30:00.481516+00:00").
Proof. vm_compute. reflexivity. Qed.

Example stats_stocked :
  fst (Ledger.stats Scenario.stocked)
  = Return (lit "Total leads: 2" ++ [Ledger.NL; Ledger.NL]
              ++ lit "By status:" ++ [Ledger.NL]
              ++ lit "  contacted: 1" ++ [Ledger.NL]
              ++ lit "  responded: 1" ++ [Ledger.NL; Ledger.NL]
              ++ lit "By source:" ++ [Ledger.NL]
              ++ lit "  forum: 1" ++ [Ledger.NL]
              ++ lit "  reddit: 1").
Proof. vm_compute. reflexivity. Qed.

(** *** The ledger on concrete worlds *)


(** C7 on a ledger of two: Joe has responded, only his status and
    [date_updated] change. *)
Lemma update_lead_frame_witness :
  Ledger._load Scenario.stocked
  = (Return (Records [Scenario.ann; Scenario.joe]), Scenario.stocked) /\
  writable Scenario.stocked = true /\
  forallb storable [Scenario.ann; Scenario.joe] = true /\
  encodable (lit "responded") = true /\
  exists pre l post l' w',
    [Scenario.ann; Scenario.joe] = pre ++ l :: post /\
    (forall x, In x pre ->
               Ledger._normalize_phone Latin1.isdigit (Lead.phone x)
               <> Ledger._normalize_phone Latin1.isdigit (lit "+1234567890")) /\
    Ledger._normalize_phone Latin1.isdigit (Lead.phone l)
    = Ledger._normalize_phone Latin1.isdigit (lit "+1234567890") /\
    (lit "responded" <> [] -> Lead.status l' = lit "responded") /\
    (lit "responded" = [] -> Lead.status l' = Lead.status l) /\
    (@nil N <> [] -> Lead.notes l' = []) /\
    (@nil N = [] -> Lead.notes l' = Lead.notes l) /\
    Lead.date_updated l' = reading Scenario.stocked (ticks Scenario.stocked) /\
    Lead.phone l' = Lead.phone l /\
    Lead.phone_normalized l' = Lead.phone_normalized l /\
    Lead.name l' = Lead.name l /\
    Lead.source l' = Lead.source l /\
    Lead.message_type l' = Lead.message_type l /\
    Lead.date_added l' = Lead.date_added l /\
    Ledger.update_lead Latin1.isdigit (lit "+1234567890") (lit "responded") []
                       Scenario.stocked
    = (Return (lit "OK: Updated " ++ lit "+1234567890" ++ lit " "
                 ++ [RIGHT_ARROW] ++ lit " status=" ++ Lead.status l'), w') /\
    disk w' = Text (Json (Records (pre ++ l' :: post))) /\
    writes w' = S (writes Scenario.stocked).
Proof.
  split; [reflexivity|]. split; [reflexivity|]. split; [reflexivity|].
  split; [reflexivity|].
  apply (proj1 (update_lead_frame
                  Latin1.isdigit Scenario.stocked
                  [Scenario.ann; Scenario.joe]
                  (lit "+1234567890") (lit "responded") [] eq_refl));
    try reflexivity.
  exists Scenario.joe. split; [right; now left|reflexivity].
Defined.

(** C7 does not hold as stated: an update whose status holds a lone
    surrogate raises while the file is being written, the file is left
    empty, and Ann, whom the update did not concern, is no longer found. *)
Lemma update_lead_surrogate_empties_file :
  (exists r, In r [Scenario.ann; Scenario.joe] /\
             Ledger._normalize_phone Latin1.isdigit (Lead.phone r)
             = Ledger._normalize_phone Latin1.isdigit (lit "+1234567890")) /\
  Ledger.update_lead Latin1.isdigit (lit "+1234567890")
                     [Scenario.LONE_SURROGATE] [] Scenario.stocked
  = (Raise UnicodeEncodeError,
     rewritten (Text NotJson) (after_readings 1 Scenario.stocked)) /\
  fst (Ledger.check_lead Latin1.isdigit (lit "(44) 20 7946 0958")
                         Scenario.stocked)
  = Return (lit "FOUND: (44) 20 7946 0958 | Ann | status=responded | source=forum | added=2023-12-30T08:00:00.250000+00:00") /\
  fst (Ledger.check_lead
         Latin1.isdigit (lit "(44) 20 7946 0958")
         (rewritten (Text NotJson) (after_readings 1 Scenario.stocked)))
  = Return (lit "NOT_FOUND: (44) 20 7946 0958 is not in the tracker "
              ++ [EM_DASH] ++ lit " safe to contact").
Proof.
  split; [exists Scenario.joe; split; [right; now left|reflexivity]|].
  split; [reflexivity|]. split; reflexivity.
Defined.

(** C10 on a ledger of two: an update of Joe that supplies nothing still
    writes the file. *)
Lemma update_lead_empty_is_a_write_witness :
  Ledger._load Scenario.stocked
  = (Return (Records [Scenario.ann; Scenario.joe]), Scenario.stocked) /\
  (exists r, In r [Scenario.ann; Scenario.joe] /\
             Ledger._normalize_phone Latin1.isdigit (Lead.phone r)
             = Ledger._normalize_phone Latin1.isdigit (lit "+1234567890")) /\
  writable Scenario.stocked = true /\
  forallb storable [Scenario.ann; Scenario.joe] = true /\
  exists pre l post l' w',
    [Scenario.ann; Scenario.joe] = pre ++ l :: post /\
    (forall x, In x pre ->
               Ledger._normalize_phone Latin1.isdigit (Lead.phone x)
               <> Ledger._normalize_phone Latin1.isdigit (lit "+1234567890")) /\
    Ledger._normalize_phone Latin1.isdigit (Lead.phone l)
    = Ledger._normalize_phone Latin1.isdigit (lit "+1234567890") /\
    l' = Ledger.set_date_updated
           (reading Scenario.stocked (ticks Scenario.stocked)) l /\
    Lead.status l' = Lead.status l /\
    Lead.notes l' = Lead.notes l /\
    Lead.date_updated l' = reading Scenario.stocked (ticks Scenario.stocked) /\
    Ledger.update_lead Latin1.isdigit (lit "+1234567890") [] []
                       Scenario.stocked
    = (Return (lit "OK: Updated " ++ lit "+1234567890" ++ lit " "
                 ++ [RIGHT_ARROW] ++ lit " status=" ++ Lead.status l), w') /\
    disk w' = Text (Json (Records (pre ++ l' :: post))) /\
    writes w' = S (writes Scenario.stocked) /\
    w' <> Scenario.stocked.
Proof.
  assert (Hkey : exists r, In r [Scenario.ann; Scenario.joe] /\
                           Ledger._normalize_phone Latin1.isdigit (Lead.phone r)
                           = Ledger._normalize_phone Latin1.isdigit
                               (lit "+1234567890")).
  { exists Scenario.joe. split; [right; now left|reflexivity]. }
  split; [reflexivity|]. split; [exact Hkey|].
  split; [reflexivity|]. split; [reflexivity|].
  exact (update_lead_empty_is_a_write
           Latin1.isdigit Scenario.stocked [Scenario.ann; Scenario.joe]
           (lit "+1234567890") eq_refl Hkey eq_refl eq_refl).
Defined.

(** C10 does not hold as stated: where a stored string holds a lone
    surrogate the rewrite raises and leaves the file empty, and where the
    file cannot be written it raises and leaves the file as it is; neither
    answers OK. *)
Lemma update_lead_empty_can_raise :
  (exists r, In r [Scenario.ann_scarred; Scenario.joe] /\
             Ledger._normalize_phone Latin1.isdigit (Lead.phone r)
             = Ledger._normalize_phone Latin1.isdigit (lit "+1234567890")) /\
  Ledger._load Scenario.scarred
  = (Return (Records [Scenario.ann_scarred; Scenario.joe]), Scenario.scarred) /\
  Ledger.update_lead Latin1.isdigit (lit "+1234567890") [] [] Scenario.scarred
  = (Raise UnicodeEncodeError,
     rewritten (Text NotJson) (after_readings 1 Scenario.scarred)) /\
  Ledger.update_lead Latin1.isdigit (lit "+1234567890") [] []
                     Scenario.read_only
  = (Raise OSError, after_readings 1 Scenario.read_only).
Proof.
  split; [exists Scenario.joe; split; [right; now left|reflexivity]|].
  split; [reflexivity|]. split; reflexivity.
Defined.

(** C9: the first add of the self-test, on a path with no file. *)
Lemma add_lead_creates_witness :
  Ledger._load Scenario.fresh = (Return (Records []), Scenario.fresh) /\
  Ledger.add_lead Latin1.isdigit (lit "+1234567890") (lit "Test Biz")
                  (lit "reddit") (lit "intro") Scenario.fresh
  = (Return (lit "OK: Added +1234567890 (Test Biz) from reddit"),
     Scenario.after_first_add) /\
  startswith (lit "OK: Added +1234567890 (Test Biz) from reddit") (lit "OK")
  = true /\
  exists r,
    lit "OK: Added +1234567890 (Test Biz) from reddit"
    = lit "OK: Added " ++ lit "+1234567890" ++ lit " (" ++ lit "Test Biz"
        ++ lit ") from " ++ lit "reddit" /\
    disk Scenario.after_first_add = Text (Json (Records ([] ++ [r]))) /\
    writes Scenario.after_first_add = S (writes Scenario.fresh) /\
    Lead.status r = lit "contacted" /\
    Lead.date_added r = reading Scenario.fresh (ticks Scenario.fresh) /\
    Lead.date_updated r = reading Scenario.fresh (S (ticks Scenario.fresh)) /\
    (Lead.date_added r = Lead.date_updated r <->
     reading Scenario.fresh (ticks Scenario.fresh)
     = reading Scenario.fresh (S (ticks Scenario.fresh))) /\
    Lead.phone r = lit "+1234567890" /\
    Lead.phone_normalized r
    = Ledger._normalize_phone Latin1.isdigit (lit "+1234567890") /\
    Lead.name r = lit "Test Biz" /\
    Lead.source r = lit "reddit" /\
    Lead.message_type r = lit "intro" /\
    Lead.notes r = [].
Proof.
  assert (Hadd : Ledger.add_lead Latin1.isdigit (lit "+1234567890")
                                 (lit "Test Biz") (lit "reddit") (lit "intro")
                                 Scenario.fresh
                 = (Return (lit "OK: Added +1234567890 (Test Biz) from reddit"),
                    Scenario.after_first_add)) by reflexivity.
  assert (Hok : startswith (lit "OK: Added +1234567890 (Test Biz) from reddit")
                           (lit "OK") = true) by reflexivity.
  split; [reflexivity|]. split; [exact Hadd|]. split; [exact Hok|].
  exact (proj2 (add_lead_creates
                  Latin1.isdigit Scenario.fresh [] (lit "+1234567890")
                  (lit "Test Biz") (lit "reddit") (lit "intro") eq_refl)
               _ _ Hadd Hok).
Defined.

(** C2: the key of a phone written with spaces and brackets, and the
    answer of check for it. *)
Lemma normalize_phone_is_the_key_witness :
  Latin1.isdigit PLUS = false /\
  Ledger._load Scenario.stocked
  = (Return (Records [Scenario.ann; Scenario.joe]), Scenario.stocked) /\
  Ledger._normalize_phone Latin1.isdigit (lit "+1 (234) 567-890")
  = (if startswith (lit "+1 (234) 567-890") [PLUS] then [PLUS] else [])
      ++ filter Latin1.isdigit (lit "+1 (234) 567-890") /\
  ((exists r, In r [Scenario.ann; Scenario.joe] /\
              Ledger._normalize_phone Latin1.isdigit (Lead.phone r)
              = Ledger._normalize_phone Latin1.isdigit
                  (lit "+1 (234) 567-890")) <->
   (exists msg w',
       Ledger.check_lead Latin1.isdigit (lit "+1 (234) 567-890")
                         Scenario.stocked = (Return msg, w') /\
       startswith msg (lit "FOUND") = true)).
Proof.
  split; [reflexivity|]. split; [reflexivity|].
  destruct (normalize_phone_is_the_key
              Latin1.isdigit Scenario.stocked [Scenario.ann; Scenario.joe]
              (lit "+1 (234) 567-890") (lit "Joe") (lit "web") (lit "intro")
              (lit "responded") [] eq_refl eq_refl)
    as (Hshape & Hcheck & _).
  split; [exact Hshape|exact Hcheck].
Defined.

(** C2 does not hold as stated: superscript two is a digit for
    [str.isdigit] and not a decimal digit, and the key keeps it. *)
Lemma normalize_phone_keeps_superscript :
  let s := lit "12345678" ++ [Scenario.SUPERSCRIPT_TWO] in
  Latin1.decimal Scenario.SUPERSCRIPT_TWO = false /\
  Ledger._normalize_phone Latin1.isdigit s = s /\
  Ledger._normalize_phone Latin1.isdigit s
  <> (if startswith s [PLUS] then [PLUS] else []) ++ filter Latin1.decimal s.
Proof.
  cbv zeta. split; [reflexivity|]. split; [reflexivity|].
  vm_compute. discriminate.
Defined.

(** C9 does not hold as stated: when the clock moves between the two
    readings of an add, the two dates of the new record differ. *)
Lemma add_lead_dates_differ :
  exists r w',
    Ledger.add_lead Latin1.isdigit (lit "+1234567890") (lit "Test Biz")
                    (lit "reddit") (lit "intro") Scenario.fresh
    = (Return (lit "OK: Added +1234567890 (Test Biz) from reddit"), w') /\
    disk w' = Text (Json (Records [r])) /\
    Lead.date_added r = lit "2024-01-01T00:00:00+00:00" /\
    Lead.date_updated r = lit "2024-01-01T00:00:00.000001+00:00" /\
    Lead.date_added r <> Lead.date_updated r.
Proof.
  exists (Lead.mk (lit "+1234567890") (lit "+1234567890") (lit "Test Biz")
                  (lit "reddit") (lit "intro") (lit "contacted")
                  (lit "2024-01-01T00:00:00+00:00")
                  (lit "2024-01-01T00:00:00.000001+00:00") []),
    Scenario.after_first_add.
  split; [reflexivity|]. split; [reflexivity|].
  split; [reflexivity|]. split; [reflexivity|].
  vm_compute. discriminate.
Defined.

(** C4. A file whose bytes are not UTF-8 does not read as an empty
    ledger: [read_text] raises UnicodeDecodeError, which the handler of
    [_load] does not name, and every operation raises it, leaving the
    world as it was. *)
Theorem undecodable_store_raises :
  Ledger._load Scenario.garbled = (Raise UnicodeDecodeError, Scenario.garbled) /\
  Ledger.check_lead Latin1.isdigit (lit "+1234567890") Scenario.garbled
  = (Raise UnicodeDecodeError, Scenario.garbled) /\
  Ledger.list_leads [] Scenario.garbled
  = (Raise UnicodeDecodeError, Scenario.garbled) /\
  Ledger.stats Scenario.garbled
  = (Raise UnicodeDecodeError, Scenario.garbled) /\
  Ledger.update_lead Latin1.isdigit (lit "+1234567890") (lit "responded") []
                     Scenario.garbled
  = (Raise UnicodeDecodeError, Scenario.garbled) /\
  Ledger.add_lead Latin1.isdigit (lit "+1234567890") (lit "Test Biz")
                  (lit "reddit") (lit "intro") Scenario.garbled
  = (Raise UnicodeDecodeError, Scenario.garbled).
Proof. repeat split. Qed.

(** A file that holds [null] is valid JSON and no list: it is loaded as
    [None], which the scanning loops cannot iterate. *)
Example null_document_is_not_iterable :
  Ledger.check_lead Latin1.isdigit (lit "+1234567890") Scenario.null_file
  = (Raise TypeError, Scenario.null_file) /\
  Ledger.add_lead Latin1.isdigit (lit "+1234567890") (lit "Test Biz")
                  (lit "reddit") (lit "intro") Scenario.null_file
  = (Raise TypeError, Scenario.null_file) /\
  Ledger.stats Scenario.null_file
  = (Return (lit "No leads yet."), Scenario.null_file).
Proof. repeat split. Qed.

(** *** The dispatch tool on concrete bridges *)

(** C3: six digits are refused before anything is done; seven are not. *)
Lemma execute_validates_witness :
  (List.length (filter Latin1.decimal (lit "+12 34 56")) = 6 /\
   Dispatch.execute Latin1.decimal Scenario.the_tool
                    (Scenario.bridge_that Dispatch.Silent)
                    (lit "+12 34 56") (lit "hello")
   = (lit "Error: Invalid phone number '" ++ lit "+12 34 56" ++ lit "' "
        ++ [EM_DASH] ++ lit " must be 7-15 digits with country code.", [])) /\
  (List.length (filter Latin1.decimal (lit "+12 34 567")) = 7 /\
   ~ ((startswith
         (fst (Dispatch.execute Latin1.decimal Scenario.the_tool
                                (Scenario.bridge_that Dispatch.Silent)
                                (lit "+12 34 567") (lit "hello")))
         (lit "Error: Both")
       || startswith
            (fst (Dispatch.execute Latin1.decimal Scenario.the_tool
                                   (Scenario.bridge_that Dispatch.Silent)
                                   (lit "+12 34 567") (lit "hello")))
            (lit "Error: Invalid")) = true /\
      snd (Dispatch.execute Latin1.decimal Scenario.the_tool
                            (Scenario.bridge_that Dispatch.Silent)
                            (lit "+12 34 567") (lit "hello")) = [])).
Proof.
  split.
  - split; [reflexivity|].
    destruct (execute_validates Latin1.decimal Scenario.the_tool
                (Scenario.bridge_that Dispatch.Silent)
                (lit "+12 34 56") (lit "hello")) as (_ & _ & Hrange & _).
    apply Hrange; [discriminate|discriminate|left; vm_compute; lia].
  - split; [reflexivity|].
    destruct (execute_validates Latin1.decimal Scenario.the_tool
                (Scenario.bridge_that Dispatch.Silent)
                (lit "+12 34 567") (lit "hello")) as (_ & _ & _ & _ & Hok).
    apply Hok; [discriminate|left; reflexivity].
Defined.

(** C5: a bridge that never answers gives the warning, after one bounded
    wait. *)
Lemma execute_timeout_is_a_warning_witness :
  lit "+1 (234) 567-890" <> [] /\ lit "hello" <> [] /\
  7 <= List.length (filter Latin1.decimal (lit "+1 (234) 567-890")) <= 15 /\
  Dispatch.execute Latin1.decimal Scenario.the_tool
                   (Scenario.bridge_that Dispatch.Silent)
                   (lit "+1 (234) 567-890") (lit "hello")
  = (lit "Warning: Message sent but no confirmation received (timeout). Check bridge logs.",
     [Dispatch.Connect (lit "ws://localhost:3001");
      Dispatch.Send [(lit "type", lit "send");
                     (lit "to", lit "1234567890@s.whatsapp.net");
                     (lit "text", lit "hello")];
      Dispatch.Recv 15%Q]).
Proof.
  assert (Hp : lit "+1 (234) 567-890" <> []) by discriminate.
  assert (Hm : lit "hello" <> []) by discriminate.
  assert (Hn : 7 <= List.length (filter Latin1.decimal (lit "+1 (234) 567-890"))
               <= 15) by (vm_compute; lia).
  split; [exact Hp|]. split; [exact Hm|]. split; [exact Hn|].
  destruct (execute_timeout_is_a_warning
              Latin1.decimal Scenario.the_tool
              (Scenario.bridge_that Dispatch.Silent)
              (lit "+1 (234) 567-890") (lit "hello")
              Hp Hm Hn eq_refl eq_refl eq_refl (or_introl eq_refl))
    as (Hfst & Hsnd & _).
  rewrite (surjective_pairing (Dispatch.execute _ _ _ _ _)), Hfst, Hsnd.
  reflexivity.
Defined.

(** C6: a status frame after one second counts as a dispatch; an error
    frame is reported with its reason. *)
Lemma execute_classifies_reply_witness :
  (1 < 15)%Q /\
  fst (Dispatch.execute Latin1.decimal Scenario.the_tool
                        (Scenario.bridge_that
                           (Dispatch.Arrives 1%Q Scenario.status_frame))
                        (lit "+1 (234) 567-890") (lit "hello"))
  = lit "OK: Message dispatched to " ++ lit "+1 (234) 567-890" ++ lit " ("
      ++ Dispatch._phone_to_jid Latin1.decimal (lit "+1 (234) 567-890")
      ++ lit ")" /\
  fst (Dispatch.execute Latin1.decimal Scenario.the_tool
                        (Scenario.bridge_that
                           (Dispatch.Arrives 1%Q Scenario.error_frame))
                        (lit "+1 (234) 567-890") (lit "hello"))
  = lit "Error from bridge: " ++ lit "not on WhatsApp".
Proof.
  assert (Hp : lit "+1 (234) 567-890" <> []) by discriminate.
  assert (Hm : lit "hello" <> []) by discriminate.
  assert (Hn : 7 <= List.length (filter Latin1.decimal (lit "+1 (234) 567-890"))
               <= 15) by (vm_compute; lia).
  assert (Ht : (1 < 15)%Q) by reflexivity.
  split; [exact Ht|]. split.
  - destruct (execute_classifies_reply
                Latin1.decimal Scenario.the_tool
                (Scenario.bridge_that
                   (Dispatch.Arrives 1%Q Scenario.status_frame))
                (lit "+1 (234) 567-890") (lit "hello") 1%Q _
                Hp Hm Hn eq_refl eq_refl eq_refl eq_refl Ht)
      as (Hother & _).
    apply Hother; vm_compute; discriminate.
  - destruct (execute_classifies_reply
                Latin1.decimal Scenario.the_tool
                (Scenario.bridge_that
                   (Dispatch.Arrives 1%Q Scenario.error_frame))
                (lit "+1 (234) 567-890") (lit "hello") 1%Q _
                Hp Hm Hn eq_refl eq_refl eq_refl eq_refl Ht)
      as (_ & Herror & _).
    apply Herror. reflexivity.
Defined.

(** C8: the one request for "+1 (234) 567-890". *)
Lemma execute_sends_one_request_witness :
  lit "+1 (234) 567-890" <> [] /\ lit "hello" <> [] /\
  7 <= List.length (filter Latin1.decimal (lit "+1 (234) 567-890")) <= 15 /\
  Dispatch.requests
    (snd (Dispatch.execute Latin1.decimal Scenario.the_tool
                           (Scenario.bridge_that Dispatch.Silent)
                           (lit "+1 (234) 567-890") (lit "hello")))
  = [[(lit "type", lit "send");
      (lit "to", filter Latin1.decimal (lit "+1 (234) 567-890")
                   ++ lit "@s.whatsapp.net");
      (lit "text", lit "hello")]].
Proof.
  assert (Hp : lit "+1 (234) 567-890" <> []) by discriminate.
  assert (Hm : lit "hello" <> []) by discriminate.
  assert (Hn : 7 <= List.length (filter Latin1.decimal (lit "+1 (234) 567-890"))
               <= 15) by (vm_compute; lia).
  split; [exact Hp|]. split; [exact Hm|]. split; [exact Hn|].
  apply (proj1 (execute_sends_one_request
                  Latin1.decimal Scenario.the_tool
                  (Scenario.bridge_that Dispatch.Silent)
                  (lit "+1 (234) 567-890") (lit "hello") Hp Hm Hn));
    reflexivity.
Defined.

(** * Further properties of the code *)

(** ** The ledger *)

Section LedgerMore.

Variable str_isdigit : N -> bool.

Let normalize := Ledger._normalize_phone str_isdigit.
Let same_phone := Ledger.same_phone str_isdigit.
Let add_lead := Ledger.add_lead str_isdigit.
Let check_lead := Ledger.check_lead str_isdigit.
Let update_lead := Ledger.update_lead str_isdigit.

Lemma filter_idem {A} (f : A -> bool) (l : list A) :
  filter f (filter f l) = filter f l.
Proof.
  induction l as [|x l IH]; simpl; [reflexivity|].
  destruct (f x) eqn:E; simpl; rewrite ?E, IH; reflexivity.
Qed.

(** X1. The comparison key of a comparison key is that key: what
    [add_lead] stores under "phone_normalized" finds the record again. *)
Theorem normalize_phone_idempotent (phone : pystr) :
  normalize (normalize phone) = normalize phone.
Proof.
  unfold normalize, Ledger._normalize_phone.
  destruct phone as [|c rest]; [reflexivity|].
  destruct (N.eqb_spec c PLUS) as [->|Hc].
  - cbn [N.eqb]. rewrite N.eqb_refl, filter_idem. reflexivity.
  - cbv iota.
    pose proof (filter_idem str_isdigit (c :: rest)) as Hfix.
    remember (filter str_isdigit (c :: rest)) as digits eqn:Hdigits.
    clear Hdigits. destruct digits as [|d ds]; [reflexivity|].
    destruct (N.eqb_spec d PLUS) as [->|_]; [|exact Hfix].
    cbn [filter] in Hfix. destruct (str_isdigit PLUS) eqn:Eplus.
    + injection Hfix as Hfix. now rewrite Hfix.
    + exfalso.
      assert (Hin : In PLUS (filter str_isdigit ds)) by (rewrite Hfix; now left).
      apply filter_In in Hin. destruct Hin as [_ Hin]. congruence.
Qed.

(** X2. What the handler of [_load] covers.  [_load] never changes the
    world and never raises JSONDecodeError; when the file is absent, or
    exists and cannot be read, or holds a text that is not JSON, it returns
    the empty list; and it raises an OSError exactly when
    [db_path.exists()], which stands outside the [try], raises one. *)
Theorem load_catches_what_it_names (w : world) :
  snd (Ledger._load w) = w /\
  fst (Ledger._load w) <> Raise JSONDecodeError /\
  (disk w = Absent \/ disk w = Unreadable \/ disk w = Text NotJson ->
   fst (Ledger._load w) = Return (Records [])) /\
  (fst (Ledger._load w) = Raise OSError <-> disk w = Inaccessible).
Proof.
  split; [apply load_keeps_world|].
  split.
  { destruct w as [[| | | |[| | |d]] wr c t n]; discriminate. }
  split.
  { intros H. now rewrite (load_empty w H). }
  destruct w as [[| | | |[| | |d]] wr c t n]; split; intros H;
    first [reflexivity | discriminate H].
Qed.

(** X3. check, list and stats never change the world: no write, no clock
    reading, whatever the file holds and whether they return or raise. *)
Theorem readers_leave_the_world (w : world) (phone status : pystr) :
  snd (check_lead phone w) = w /\
  snd (Ledger.list_leads status w) = w /\
  snd (Ledger.stats w) = w.
Proof.
  unfold check_lead, Ledger.check_lead, Ledger.list_leads, Ledger.stats, bind.
  destruct (Ledger._load w) as [[d|e] w0] eqn:Hload;
    apply load_never_writes in Hload; subst w0; [|repeat split].
  destruct d as [leads|]; cbn [iterate ret raise is_falsy len].
  - split; [|split].
    + destruct (find _ leads); reflexivity.
    + destruct (truthy status); cbn [ret is_falsy].
      * destruct (filter (fun l => str_eqb (Lead.status l) status) leads);
          reflexivity.
      * destruct leads; reflexivity.
    + destruct leads; reflexivity.
  - repeat split. destruct (truthy status); reflexivity.
Qed.

Lemma find_app_miss (p : lead -> bool) (items : list lead) (r : lead) :
  p r = false -> find p (items ++ [r]) = find p items.
Proof.
  intros Hr. induction items as [|x items IH]; simpl.
  - now rewrite Hr.
  - destruct (p x); auto.
Qed.

Lemma same_phone_false (norm : pystr) (l : lead) :
  Ledger.same_phone str_isdigit norm l = false <->
  normalize (Lead.phone l) <> norm.
Proof.
  unfold Ledger.same_phone. fold normalize.
  destruct (str_eqb_spec (normalize (Lead.phone l)) norm); split; congruence.
Qed.

Lemma find_skip (q : lead -> bool) (pre post : list lead) (l : lead) :
  q l = false -> find q (pre ++ l :: post) = find q (pre ++ post).
Proof.
  intros Hl. induction pre as [|x pre IH]; simpl.
  - now rewrite Hl.
  - destruct (q x); auto.
Qed.

Lemma find_at (p : lead -> bool) (pre post : list lead) (l : lead) :
  (forall x, In x pre -> p x = false) -> p l = true ->
  find p (pre ++ l :: post) = Some l.
Proof.
  intros Hpre Hl. induction pre as [|x pre IH]; simpl.
  - now rewrite Hl.
  - rewrite (Hpre x) by now left. apply IH. intros y Hy. apply Hpre. now right.
Qed.

(** An add that returns has either met a duplicate and done nothing, or
    written the list with the new record at its end. *)
Lemma add_lead_returned (w : world) (leads : list lead)
      (phone name source message msg : pystr) (w' : world) :
  Ledger._load w = (Return (Records leads), w) ->
  add_lead phone name source message w = (Return msg, w') ->
  (exists l,
      find (Ledger.same_phone str_isdigit (normalize phone)) leads = Some l /\
      msg = lit "DUPLICATE: " ++ phone ++ lit " already in tracker (added "
              ++ Lead.date_added l ++ lit ")" /\
      w' = w) \/
  (find (Ledger.same_phone str_isdigit (normalize phone)) leads = None /\
   msg = lit "OK: Added " ++ phone ++ lit " (" ++ name
           ++ lit ") from " ++ source /\
   w' = rewritten
          (Text (Json (Records
             (leads ++ [Ledger.new_lead phone (normalize phone) name source
                                        message (reading w (ticks w))
                                        (reading w (S (ticks w)))]))))
          (after_readings 2 w)).
Proof.
  unfold normalize, add_lead. intros Hload.
  rewrite (add_lead_unfold _ _ _ _ _ _ _ Hload).
  destruct (find _ leads) as [l|] eqn:Hfind.
  - intros H. injection H as <- <-. left. exists l. auto.
  - rewrite save_cases. cbn [writable after_readings].
    destruct (negb (writable w)); [discriminate|].
    destruct (forallb storable _); [|discriminate].
    intros H. injection H as <- <-. right. auto.
Qed.

(** An update that returns has either found nothing and done nothing, or
    written the list with the matched record replaced. *)
Lemma update_lead_returned (w : world) (leads : list lead)
      (phone status notes msg : pystr) (w' : world) :
  Ledger._load w = (Return (Records leads), w) ->
  update_lead phone status notes w = (Return msg, w') ->
  (find (Ledger.same_phone str_isdigit (normalize phone)) leads = None /\
   msg = lit "NOT_FOUND: " ++ phone /\ w' = w) \/
  (exists (pre post : list lead) (l l' : lead),
      leads = pre ++ l :: post /\
      (forall x, In x pre -> normalize (Lead.phone x) <> normalize phone) /\
      normalize (Lead.phone l) = normalize phone /\
      (status <> [] -> Lead.status l' = status) /\
      created_with l' = created_with l /\
      msg = lit "OK: Updated " ++ phone ++ lit " " ++ [RIGHT_ARROW]
              ++ lit " status=" ++ Lead.status l' /\
      w' = rewritten (Text (Json (Records (pre ++ l' :: post))))
                     (after_readings 1 w)).
Proof.
  unfold normalize, update_lead. intros Hload Hupd.
  destruct (find (Ledger.same_phone
                    str_isdigit (Ledger._normalize_phone str_isdigit phone))
                 leads) as [l|] eqn:Hfind.
  - right.
    destruct (update_lead_found str_isdigit w leads phone status notes l
                                Hload Hfind)
      as (pre & post & l' & Hsplit & Hpre & Hl
          & (Hstatus & _ & _ & _ & _ & Hcreated) & _ & Heq).
    rewrite Heq, save_cases in Hupd. cbn [writable after_readings] in Hupd.
    destruct (negb (writable w)); [discriminate|].
    destruct (forallb storable (pre ++ l' :: post)); [|discriminate].
    injection Hupd as <- <-. exists pre, post, l, l'.
    repeat split; assumption.
  - left. rewrite (update_lead_unfold _ _ _ _ _ _ Hload), Hfind in Hupd.
    injection Hupd as <- <-. auto.
Qed.


(** X5. An add that returns, with OK or with DUPLICATE, does not change
    the answer of check for any phone with another comparison key. *)
Theorem add_keeps_other_answers
        (w : world) (leads : list lead)
        (phone name source message other msg : pystr) (w' : world) :
  Ledger._load w = (Return (Records leads), w) ->
  normalize other <> normalize phone ->
  add_lead phone name source message w = (Return msg, w') ->
  fst (check_lead other w') = fst (check_lead other w).
Proof.
  intros Hload Hother Hadd.
  destruct (add_lead_returned _ _ _ _ _ _ _ _ Hload Hadd)
    as [(l & _ & _ & ->)|(_ & _ & ->)]; [reflexivity|].
  unfold check_lead.
  erewrite check_lead_unfold by (apply load_stored; reflexivity).
  rewrite (check_lead_unfold _ _ _ _ Hload).
  rewrite find_app_miss;
    [destruct (find (Ledger.same_phone
                       str_isdigit
                       (Ledger._normalize_phone str_isdigit other)) leads);
     reflexivity|].
  apply same_phone_false. cbn [Lead.phone Ledger.new_lead].
  unfold normalize in *. congruence.
Qed.

(** X6. After an update that supplied a status and answered OK, check on
    the same phone answers FOUND with that status, and with the phone,
    name, source and [date_added] the record had before. *)
Theorem update_then_check_status
        (w : world) (leads : list lead) (phone status notes msg : pystr)
        (w' : world) :
  Ledger._load w = (Return (Records leads), w) ->
  status <> [] ->
  update_lead phone status notes w = (Return msg, w') ->
  startswith msg (lit "OK") = true ->
  exists l,
    In l leads /\ normalize (Lead.phone l) = normalize phone /\
    msg = lit "OK: Updated " ++ phone ++ lit " " ++ [RIGHT_ARROW]
            ++ lit " status=" ++ status /\
    check_lead phone w'
    = (Return (lit "FOUND: " ++ Lead.phone l ++ lit " | " ++ Lead.name l
                 ++ lit " | status=" ++ status
                 ++ lit " | source=" ++ Lead.source l
                 ++ lit " | added=" ++ Lead.date_added l), w').
Proof.
  intros Hload Hstatus Hupd Hok.
  destruct (update_lead_returned _ _ _ _ _ _ _ Hload Hupd)
    as [(_ & -> & _)
       |(pre & post & l & l' & -> & Hpre & Hl & Hst & Hsame & -> & ->)];
    [discriminate Hok|].
  specialize (Hst Hstatus).
  exists l. split; [apply in_or_app; right; now left|].
  split; [exact Hl|]. split; [now rewrite Hst|].
  unfold check_lead.
  erewrite check_lead_unfold by (apply load_stored; reflexivity).
  unfold created_with in Hsame.
  injection Hsame as Hphone _ Hname Hsource _ Hadded.
  unfold normalize in *.
  rewrite (find_at _ pre post l').
  - now rewrite Hphone, Hname, Hsource, Hadded, Hst.
  - intros x Hx. apply same_phone_false. exact (Hpre x Hx).
  - apply same_phone_iff. rewrite Hphone. exact Hl.
Qed.

(** X7. An update that returns, with OK or with NOT_FOUND, does not
    change the answer of check for any phone with another comparison
    key. *)
Theorem update_keeps_other_answers
        (w : world) (leads : list lead)
        (phone status notes other msg : pystr) (w' : world) :
  Ledger._load w = (Return (Records leads), w) ->
  normalize other <> normalize phone ->
  update_lead phone status notes w = (Return msg, w') ->
  fst (check_lead other w') = fst (check_lead other w).
Proof.
  intros Hload Hother Hupd.
  destruct (update_lead_returned _ _ _ _ _ _ _ Hload Hupd)
    as [(_ & _ & ->)
       |(pre & post & l & l' & -> & _ & Hl & _ & Hsame & _ & ->)];
    [reflexivity|].
  unfold check_lead.
  erewrite check_lead_unfold by (apply load_stored; reflexivity).
  rewrite (check_lead_unfold _ _ _ _ Hload).
  unfold created_with in Hsame. injection Hsame as Hphone _ _ _ _ _.
  rewrite !find_skip.
  - destruct (find _ (pre ++ post)); reflexivity.
  - apply same_phone_false. unfold normalize in *. congruence.
  - apply same_phone_false. unfold normalize in *. congruence.
Qed.



(** X24. A write that fails on a string it cannot encode loses the
    ledger.  When an add of a phone that is not stored, on a file that can
    be written, is given a name with a lone surrogate, it raises
    UnicodeEncodeError after the file has been opened and emptied; from
    then on the ledger reads as empty, and check answers NOT_FOUND for
    every phone, those of the records that were stored included. *)
Theorem failed_write_loses_the_ledger
        (w : world) (leads : list lead)
        (phone name source message other : pystr) :
  Ledger._load w = (Return (Records leads), w) ->
  (forall r, In r leads -> normalize (Lead.phone r) <> normalize phone) ->
  writable w = true ->
  encodable name = false ->
  exists w',
    add_lead phone name source message w = (Raise UnicodeEncodeError, w') /\
    disk w' = Text NotJson /\
    writes w' = S (writes w) /\
    Ledger._load w' = (Return (Records []), w') /\
    check_lead other w'
    = (Return (lit "NOT_FOUND: " ++ other ++ lit " is not in the tracker "
                 ++ [EM_DASH] ++ lit " safe to contact"), w').
Proof.
  unfold normalize, add_lead, check_lead.
  intros Hload Hnone Hw Hname. apply (scan_miss str_isdigit) in Hnone.
  rewrite (add_lead_unfold _ _ _ _ _ _ _ Hload), Hnone, save_cases.
  cbn [writable after_readings]. rewrite Hw. cbn [negb].
  assert (Hbad : forallb storable
                   (leads ++ [Ledger.new_lead
                                phone (Ledger._normalize_phone str_isdigit phone)
                                name source message (reading w (ticks w))
                                (reading w (S (ticks w)))]) = false).
  { rewrite forallb_app. cbn [forallb]. unfold storable at 2.
    cbn [Ledger.new_lead Lead.phone Lead.phone_normalized Lead.name
         Lead.source Lead.message_type Lead.status Lead.date_added
         Lead.date_updated Lead.notes].
    rewrite Hname.
    repeat rewrite ?andb_false_r, ?andb_false_l; reflexivity. }
  rewrite Hbad. eexists. split; [reflexivity|].
  split; [reflexivity|]. split; [reflexivity|].
  assert (Hempty : Ledger._load
                     (rewritten (Text NotJson) (after_readings 2 w))
                   = (Return (Records []),
                      rewritten (Text NotJson) (after_readings 2 w))).
  { apply load_empty. right; right; reflexivity. }
  split; [exact Hempty|].
  now rewrite (check_lead_unfold _ _ _ _ Hempty).
Qed.

End LedgerMore.

(** ** The counts and the order of [stats] *)

Section Counting.

Variable key : lead -> pystr.

Lemma bump_keys (k : pystr) (d : list (pystr * nat)) :
  map fst (Ledger.bump k d)
  = if existsb (fun k' => str_eqb k' k) (map fst d)
    then map fst d else map fst d ++ [k].
Proof.
  induction d as [|[k' v] d IH]; simpl; [reflexivity|].
  destruct (str_eqb k' k); simpl; [reflexivity|].
  rewrite IH. destruct (existsb _ (map fst d)); reflexivity.
Qed.

Lemma bump_keeps_keys_distinct (k : pystr) (d : list (pystr * nat)) :
  NoDup (map fst d) -> NoDup (map fst (Ledger.bump k d)).
Proof.
  intros Hd. rewrite bump_keys.
  destruct (existsb (fun k' => str_eqb k' k) (map fst d)) eqn:E; [exact Hd|].
  apply NoDup_app; [exact Hd|repeat constructor; intros []|].
  intros x Hx [<-|[]].
  assert (Hex : existsb (fun k' => str_eqb k' k) (map fst d) = true).
  { apply existsb_exists. exists k. split; [exact Hx|apply str_eqb_refl]. }
  congruence.
Qed.

Lemma bump_count_of (k k' : pystr) (d : list (pystr * nat)) :
  count_of k' (Ledger.bump k d)
  = if str_eqb k k' then S (count_of k' d) else count_of k' d.
Proof.
  induction d as [|[k0 v] d IH]; simpl.
  - reflexivity.
  - destruct (str_eqb_spec k0 k) as [->|Hk0]; simpl.
    + destruct (str_eqb k k'); reflexivity.
    + destruct (str_eqb_spec k0 k') as [->|Hk0']; [|exact IH].
      destruct (str_eqb_spec k k'); [congruence|reflexivity].
Qed.

Lemma bump_total (k : pystr) (d : list (pystr * nat)) :
  list_sum (map snd (Ledger.bump k d)) = S (list_sum (map snd d)).
Proof.
  induction d as [|[k' v] d IH]; simpl; [reflexivity|].
  destruct (str_eqb k' k); simpl; [reflexivity|]. rewrite IH. lia.
Qed.

Lemma count_from (items : list lead) (d : list (pystr * nat)) :
  NoDup (map fst d) ->
  let d' := fold_left (fun d l => Ledger.bump (key l) d) items d in
  NoDup (map fst d') /\
  list_sum (map snd d') = list_sum (map snd d) + List.length items /\
  forall k, count_of k d'
            = count_of k d
              + List.length (filter (fun l => str_eqb (key l) k) items).
Proof.
  revert d. induction items as [|l items IH]; intros d Hd; cbn [fold_left].
  - cbn. repeat split; auto; intros; lia.
  - destruct (IH (Ledger.bump (key l) d) (bump_keeps_keys_distinct _ _ Hd))
      as (Hnodup & Hsum & Hcount).
    split; [exact Hnodup|]. split.
    + rewrite Hsum, bump_total. cbn [List.length]. lia.
    + intros k. rewrite Hcount, bump_count_of. cbn [filter].
      destruct (str_eqb (key l) k); cbn [List.length]; lia.
Qed.

(** X9. The dict that [stats] builds for a field has each value of the
    field once as a key, and under it the number of leads with that value
    (0, that is no entry, for a value no lead has). *)
Theorem count_by_counts (items : list lead) (k : pystr) :
  NoDup (map fst (Ledger.count_by key items)) /\
  count_of k (Ledger.count_by key items)
  = List.length (filter (fun l => str_eqb (key l) k) items) /\
  (In k (map fst (Ledger.count_by key items)) <->
   exists l, In l items /\ key l = k).
Proof.
  destruct (count_from items [] (NoDup_nil _)) as (Hnodup & _ & Hcount).
  split; [exact Hnodup|]. split; [exact (Hcount k)|].
  unfold Ledger.count_by. clear Hnodup Hcount.
  assert (Hgen : forall d,
             In k (map fst (fold_left (fun d l => Ledger.bump (key l) d) items d))
             <-> In k (map fst d) \/ exists l, In l items /\ key l = k).
  { induction items as [|l items IH]; intros d; cbn [fold_left].
    - split; [auto|]. intros [H|(l & [] & _)]; exact H.
    - rewrite IH, bump_keys.
      destruct (existsb (fun k' => str_eqb k' (key l)) (map fst d)) eqn:E.
      + split.
        * intros [H|(x & Hx & Hk)]; [now left|right; exists x; split; [now right|exact Hk]].
        * intros [H|(x & [<-|Hx] & Hk)]; [now left| |right; now exists x].
          left. apply existsb_exists in E as (k' & Hin & Heq).
          apply str_eqb_eq in Heq. congruence.
      + rewrite in_app_iff. split.
        * intros [[H|[<-|[]]]|(x & Hx & Hk)];
            [now left|right; exists l; split; [now left|reflexivity]
            |right; exists x; split; [now right|exact Hk]].
        * intros [H|(x & [<-|Hx] & Hk)];
            [left; now left|left; right; left; exact Hk|right; now exists x]. }
  rewrite Hgen. cbn [map]. split; [intros [[]|H]; exact H|intros H; now right].
Qed.

(** X10. The counts of a field add up to the number of leads. *)
Theorem count_by_total (items : list lead) :
  list_sum (map snd (Ledger.count_by key items)) = List.length items.
Proof.
  destruct (count_from items [] (NoDup_nil _)) as (_ & Hsum & _).
  exact Hsum.
Qed.

End Counting.

Lemma str_ltb_irrefl (a : pystr) : str_ltb a a = false.
Proof.
  induction a as [|x a IH]; simpl; [reflexivity|].
  rewrite N.ltb_irrefl, N.eqb_refl, IH. reflexivity.
Qed.

Lemma str_ltb_asym (a b : pystr) :
  str_ltb a b = true -> str_ltb b a = false.
Proof.
  revert b; induction a as [|x a IH]; intros [|y b]; simpl; try discriminate;
    try reflexivity.
  intros H. apply orb_true_iff in H.
  destruct (N.ltb_spec y x) as [Hyx|Hyx]; simpl.
  - destruct H as [H|H].
    + apply N.ltb_lt in H. lia.
    + apply andb_true_iff in H as [H _]. apply N.eqb_eq in H. lia.
  - destruct (N.eqb_spec y x) as [->|Hne]; simpl; [|reflexivity].
    destruct H as [H|H].
    + apply N.ltb_lt in H. lia.
    + apply andb_true_iff in H as [_ H]. now apply IH.
Qed.

Lemma str_ltb_cotrans (x y z : pystr) :
  str_ltb x z = true -> str_ltb x y = true \/ str_ltb y z = true.
Proof.
  revert y z; induction x as [|a x IH]; intros [|b y] [|c z]; simpl;
    try discriminate; auto.
  intros H. apply orb_true_iff in H.
  destruct (N.ltb_spec a b) as [Hab|Hab]; simpl; [now left|].
  destruct (N.ltb_spec b c) as [Hbc|Hbc]; simpl; [now right|].
  destruct H as [H|H].
  - apply N.ltb_lt in H. lia.
  - apply andb_true_iff in H as [Hac H]. apply N.eqb_eq in Hac. subst c.
    assert (a = b) by lia. subst b. rewrite N.eqb_refl. simpl.
    exact (IH y z H).
Qed.

Lemma str_ltb_total (a b : pystr) :
  str_ltb a b = false -> str_ltb b a = false -> a = b.
Proof.
  revert b; induction a as [|x a IH]; intros [|y b]; simpl; try discriminate;
    auto.
  intros Hab Hba.
  apply orb_false_iff in Hab as [Hxy Hab]. apply orb_false_iff in Hba as [Hyx Hba].
  apply N.ltb_ge in Hxy. apply N.ltb_ge in Hyx.
  assert (x = y) by lia. subst y. rewrite N.eqb_refl in *. simpl in *.
  f_equal. now apply IH.
Qed.

Lemma insert_sorted_perm (kv : pystr * nat) (d : list (pystr * nat)) :
  Permutation (Ledger.insert_sorted kv d) (kv :: d).
Proof.
  induction d as [|kv' d IH]; simpl; [reflexivity|].
  destruct (str_ltb (fst kv') (fst kv)); [|reflexivity].
  rewrite IH. apply perm_swap.
Qed.

Lemma insert_sorted_ascending (kv : pystr * nat) (d : list (pystr * nat)) :
  StronglySorted (fun a b => str_ltb (fst b) (fst a) = false) d ->
  StronglySorted (fun a b => str_ltb (fst b) (fst a) = false)
                 (Ledger.insert_sorted kv d).
Proof.
  induction 1 as [|kv' d Hd IH Hall]; simpl.
  - repeat constructor.
  - destruct (str_ltb (fst kv') (fst kv)) eqn:E.
    + constructor; [exact IH|].
      rewrite (insert_sorted_perm kv d). constructor; [|exact Hall].
      now apply str_ltb_asym.
    + constructor; [now constructor|].
      constructor; [exact E|].
      apply Forall_forall. intros x Hx.
      rewrite Forall_forall in Hall. specialize (Hall x Hx).
      destruct (str_ltb (fst x) (fst kv)) eqn:Ex; [|reflexivity].
      destruct (str_ltb_cotrans _ (fst kv') _ Ex); congruence.
Qed.

(** X11. [sorted(d.items())], as [stats] uses it: the pairs of the dict,
    each once, so ordered that no key is smaller than an earlier one; and
    strictly ascending by key, the keys of a dict being distinct. *)
Theorem sorted_is_ascending (d : list (pystr * nat)) :
  NoDup (map fst d) ->
  Permutation (Ledger.sorted d) d /\
  StronglySorted (fun a b => str_ltb (fst b) (fst a) = false) (Ledger.sorted d) /\
  StronglySorted (fun a b => str_ltb (fst a) (fst b) = true) (Ledger.sorted d).
Proof.
  intros Hnodup.
  assert (Hperm : Permutation (Ledger.sorted d) d).
  { clear Hnodup. induction d as [|kv d IH]; simpl; [reflexivity|].
    now rewrite insert_sorted_perm, IH. }
  assert (Hsorted : StronglySorted (fun a b => str_ltb (fst b) (fst a) = false)
                                   (Ledger.sorted d)).
  { clear Hnodup Hperm. induction d as [|kv d IH]; simpl; [constructor|].
    now apply insert_sorted_ascending. }
  split; [exact Hperm|]. split; [exact Hsorted|].
  assert (Hkeys : NoDup (map fst (Ledger.sorted d))).
  { eapply Permutation_NoDup; [|exact Hnodup].
    apply Permutation_map. now symmetry. }
  clear Hperm Hnodup.
  induction Hsorted as [|kv l Hl IH Hall]; [constructor|].
  cbn [map] in Hkeys. inversion Hkeys as [|? ? Hnotin Hrest]; subst.
  constructor; [now apply IH|].
  apply Forall_forall. intros x Hx.
  rewrite Forall_forall in Hall. specialize (Hall x Hx).
  destruct (str_ltb (fst kv) (fst x)) eqn:E; [reflexivity|].
  exfalso. apply Hnotin. rewrite (str_ltb_total _ _ E Hall).
  now apply in_map.
Qed.

(** ** The dispatch tool, further *)

Section DispatchMore.

Variable re_digit : N -> bool.

Let execute := Dispatch.execute re_digit.
Let jid_of := Dispatch._phone_to_jid re_digit.
Let digits_of := Dispatch._normalize_phone re_digit.

(** X12. The address of a phone is decided by its decimal digits alone:
    two phones get the same JID exactly when their digit strings are equal,
    and normalizing a phone first does not change its JID. *)
Theorem jid_same_iff_same_digits (a b : pystr) :
  (jid_of a = jid_of b <-> digits_of a = digits_of b) /\
  jid_of (digits_of a) = jid_of a /\
  digits_of (digits_of a) = digits_of a.
Proof.
  unfold jid_of, digits_of, Dispatch._phone_to_jid, Dispatch._normalize_phone.
  split; [split|].
  - apply app_inv_tail.
  - intros ->. reflexivity.
  - rewrite filter_idem. split; reflexivity.
Qed.

Lemma startswith_shorter (s p q : pystr) :
  startswith s (p ++ q) = true -> startswith s p = true.
Proof.
  revert s; induction p as [|c p IH]; intros s H.
  - destruct s; reflexivity.
  - destruct s as [|x s]; simpl in *; [discriminate|].
    apply andb_true_iff in H as [-> H]. simpl. now apply IH.
Qed.

(** Either validation refuses the input, or [execute] goes on to the
    import test and the exchange. *)
Lemma execute_refuses_or_goes_on
      (self : Dispatch.tool) (env : Dispatch.bridge) (phone message : pystr) :
  (exists line,
      execute self env phone message = (line, []) /\
      startswith line (lit "Error: ") = true /\
      (phone = [] \/ message = [] \/
       ~ 7 <= List.length (filter re_digit phone) <= 15)) \/
  (phone <> [] /\ message <> [] /\
   7 <= List.length (filter re_digit phone) <= 15).
Proof.
  unfold execute, Dispatch.execute, Dispatch._normalize_phone.
  destruct phone as [|c p].
  { left. eexists. split; [reflexivity|]. split; [reflexivity|now left]. }
  destruct message as [|c' m].
  { left. eexists. split; [reflexivity|]. split; [reflexivity|right; now left]. }
  cbn [truthy negb orb].
  destruct (Nat.ltb_spec (List.length (filter re_digit (c :: p))) 7).
  { left. eexists. split; [reflexivity|]. split; [reflexivity|right; right; lia]. }
  destruct (Nat.ltb_spec 15 (List.length (filter re_digit (c :: p)))).
  { left. eexists. split; [reflexivity|]. split; [reflexivity|right; right; lia]. }
  right. split; [discriminate|]. split; [discriminate|lia].
Qed.

Ltac every_exchange env :=
  unfold Dispatch.exchange, Dispatch.confirmation, Dispatch.wait_for,
    Dispatch.handlers;
  destruct (Dispatch.websockets_installed env) eqn:?; cbn [negb];
  [ destruct (Dispatch.connect_fails env) as [[[] ?]|] eqn:?;
    [ | | |
      destruct (Dispatch.send_fails env) as [[[] ?]|] eqn:?;
      [ | | |
        destruct (Dispatch.answer env) as [? [?|?|?]| |[[] ?]] eqn:?;
        [ destruct (Qle_bool Dispatch.CONFIRM_TIMEOUT _) eqn:?
        | destruct (Qle_bool Dispatch.CONFIRM_TIMEOUT _) eqn:?
        | destruct (Qle_bool Dispatch.CONFIRM_TIMEOUT _) eqn:?;
          [ | destruct (Dispatch.equals_str _ (lit "sent")) eqn:?;
              [ | destruct (Dispatch.equals_str _ (lit "error")) eqn:? ] ]
        | | | | ] ] ]
  | ];
  cbn [Dispatch.exc_kind Dispatch.exc_text fst snd].

(** X13. Whatever the input and the bridge, [execute] does at most one
    connect, then at most one send of the request for this phone and
    message, then at most one wait of 15 seconds, in this order; and it
    does nothing on the network when websockets cannot be imported. *)
Theorem execute_network_footprint
        (self : Dispatch.tool) (env : Dispatch.bridge) (phone message : pystr) :
  let done := snd (execute self env phone message) in
  let url := Dispatch.bridge_url self in
  let request := Dispatch.Send [(lit "type", lit "send");
                                (lit "to", jid_of phone);
                                (lit "text", message)] in
  (done = [] \/ done = [Dispatch.Connect url] \/
   done = [Dispatch.Connect url; request] \/
   done = [Dispatch.Connect url; request; Dispatch.Recv 15%Q]) /\
  (Dispatch.websockets_installed env = false -> done = []).
Proof.
  cbv zeta.
  destruct (execute_refuses_or_goes_on self env phone message)
    as [(line & -> & _)|(Hp & Hm & Hn)].
  { split; [now left|reflexivity]. }
  unfold execute. rewrite (execute_valid re_digit self env phone message Hp Hm Hn).
  every_exchange env; (split; [|try discriminate; try reflexivity]); auto.
Qed.

(** X14. Every line [execute] returns starts with "OK: ", "Error" or
    "Warning: ". *)
Theorem execute_result_is_tagged
        (self : Dispatch.tool) (env : Dispatch.bridge) (phone message : pystr) :
  let line := fst (execute self env phone message) in
  startswith line (lit "OK: ") = true \/
  startswith line (lit "Error") = true \/
  startswith line (lit "Warning: ") = true.
Proof.
  cbv zeta.
  destruct (execute_refuses_or_goes_on self env phone message)
    as [(line & -> & Hline & _)|(Hp & Hm & Hn)].
  { right. left. cbn [fst].
    apply (startswith_shorter line (lit "Error") (lit ": ")). exact Hline. }
  unfold execute. rewrite (execute_valid re_digit self env phone message Hp Hm Hn).
  every_exchange env; auto.
Qed.

(** X15. When a valid request meets an exception while connecting, or
    after the connection while sending: a refused connection is reported by
    the "Cannot connect" line that names the endpoint, any other exception
    by "Error sending WhatsApp message: " followed by its text.  A failed
    connect is the last thing done: nothing is sent. *)
Theorem execute_reports_transport_failure
        (self : Dispatch.tool) (env : Dispatch.bridge) (phone message : pystr)
        (e : Dispatch.exc) :
  phone <> [] -> message <> [] ->
  7 <= List.length (filter re_digit phone) <= 15 ->
  Dispatch.websockets_installed env = true ->
  (Dispatch.connect_fails env = Some e \/
   (Dispatch.connect_fails env = None /\ Dispatch.send_fails env = Some e)) ->
  let r := execute self env phone message in
  fst r = match Dispatch.exc_kind e with
          | Dispatch.ConnectionRefusedError =>
              lit "Error: Cannot connect to WhatsApp bridge at "
                ++ Dispatch.bridge_url self
                ++ lit ". Make sure the bridge is running (cd bridge && npm start)."
          | _ => lit "Error sending WhatsApp message: " ++ Dispatch.exc_text e
          end /\
  (Dispatch.connect_fails env = Some e ->
   snd r = [Dispatch.Connect (Dispatch.bridge_url self)]) /\
  ~ In (Dispatch.Recv 15%Q) (snd r).
Proof.
  intros Hp Hm Hn Hws Hfail r. subst r. unfold execute.
  rewrite (execute_valid re_digit self env phone message Hp Hm Hn).
  unfold Dispatch.exchange, Dispatch.handlers. rewrite Hws. cbn [negb].
  destruct Hfail as [Hc|[Hc Hs]]; rewrite Hc; [|rewrite Hs]; cbn [fst snd].
  - split; [reflexivity|]. split; [reflexivity|].
    intros [H|[]]; discriminate H.
  - split; [reflexivity|]. split; [discriminate|].
    intros [H|[H|[]]]; discriminate H.
Qed.

(** X16. When the reply to a valid request comes in time but is not JSON,
    or is JSON that is not an object, [execute] reports "Error sending
    WhatsApp message: ..." although the request has been sent. *)
Theorem execute_malformed_reply
        (self : Dispatch.tool) (env : Dispatch.bridge) (phone message : pystr)
        (after : Q) (why : pystr) :
  phone <> [] -> message <> [] ->
  7 <= List.length (filter re_digit phone) <= 15 ->
  Dispatch.websockets_installed env = true ->
  Dispatch.connect_fails env = None ->
  Dispatch.send_fails env = None ->
  (Dispatch.answer env = Dispatch.Arrives after (Dispatch.Unparsable why) \/
   Dispatch.answer env = Dispatch.Arrives after (Dispatch.NotObject why)) ->
  (after < 15)%Q ->
  execute self env phone message
  = (lit "Error sending WhatsApp message: " ++ why,
     [Dispatch.Connect (Dispatch.bridge_url self);
      Dispatch.Send [(lit "type", lit "send");
                     (lit "to", jid_of phone);
                     (lit "text", message)];
      Dispatch.Recv 15%Q]).
Proof.
  intros Hp Hm Hn Hws Hconn Hsend Hanswer Hintime. unfold execute.
  rewrite (execute_valid re_digit self env phone message Hp Hm Hn).
  unfold Dispatch.exchange, Dispatch.confirmation, Dispatch.wait_for,
    Dispatch.handlers.
  rewrite Hws, Hconn, Hsend. cbn [negb].
  apply in_time_means_delivered in Hintime.
  destruct Hanswer as [->| ->]; rewrite Hintime; reflexivity.
Qed.

(** X17. When the reply to a valid request is an object with "type"
    "sent" that comes in time, [execute] returns "OK: Message sent to"
    with the phone as given and its JID. *)
Theorem execute_sent_confirms
        (self : Dispatch.tool) (env : Dispatch.bridge) (phone message : pystr)
        (after : Q) (response : list (pystr * Dispatch.jvalue)) :
  phone <> [] -> message <> [] ->
  7 <= List.length (filter re_digit phone) <= 15 ->
  Dispatch.websockets_installed env = true ->
  Dispatch.connect_fails env = None ->
  Dispatch.send_fails env = None ->
  Dispatch.answer env = Dispatch.Arrives after (Dispatch.Object response) ->
  (after < 15)%Q ->
  Dispatch.get response (lit "type") = Some (Dispatch.JStr (lit "sent")) ->
  fst (execute self env phone message)
  = lit "OK: Message sent to " ++ phone ++ lit " ("
      ++ (filter re_digit phone ++ lit "@s.whatsapp.net") ++ lit ")".
Proof.
  intros Hp Hm Hn Hws Hconn Hsend Hanswer Hintime Htype. unfold execute.
  rewrite (execute_valid re_digit self env phone message Hp Hm Hn).
  unfold Dispatch.exchange, Dispatch.confirmation, Dispatch.wait_for.
  rewrite Hws, Hconn, Hsend, Hanswer. cbn [negb].
  apply in_time_means_delivered in Hintime. rewrite Hintime, Htype.
  rewrite (proj2 (equals_str_iff _ (lit "sent")) eq_refl). reflexivity.
Qed.

(** X18. [execute] never reports success on its own: a line that starts
    with "OK" is returned only after the request has been sent and an
    object has come back within the 15 seconds whose "type" is not
    "error". *)
Theorem execute_ok_needs_reply
        (self : Dispatch.tool) (env : Dispatch.bridge) (phone message : pystr) :
  startswith (fst (execute self env phone message)) (lit "OK") = true ->
  exists after response,
    Dispatch.answer env = Dispatch.Arrives after (Dispatch.Object response) /\
    (after < 15)%Q /\
    Dispatch.get response (lit "type") <> Some (Dispatch.JStr (lit "error")) /\
    Dispatch.websockets_installed env = true /\
    Dispatch.connect_fails env = None /\
    Dispatch.send_fails env = None /\
    snd (execute self env phone message)
    = [Dispatch.Connect (Dispatch.bridge_url self);
       Dispatch.Send [(lit "type", lit "send");
                      (lit "to", jid_of phone);
                      (lit "text", message)];
       Dispatch.Recv 15%Q].
Proof.
  destruct (execute_refuses_or_goes_on self env phone message)
    as [(line & -> & Hline & _)|(Hp & Hm & Hn)].
  { cbn [fst]. intros H. exfalso.
    destruct line as [|c line]; [discriminate|].
    cbn in Hline, H.
    apply andb_true_iff in Hline as [Hc _]. apply andb_true_iff in H as [Hc' _].
    apply N.eqb_eq in Hc, Hc'. congruence. }
  unfold execute. rewrite (execute_valid re_digit self env phone message Hp Hm Hn).
  every_exchange env; intros H; try (vm_compute in H; discriminate H).
  all: do 2 eexists; split; [reflexivity|];
    split; [apply in_time_means_delivered; eassumption|];
    split; [|repeat split].
  - intros Habs.
    match goal with
    | Hs : Dispatch.equals_str _ (lit "sent") = true |- _ =>
        apply equals_str_iff in Hs; rewrite Hs in Habs;
        vm_compute in Habs; discriminate Habs
    end.
  - intros Habs. apply equals_str_iff in Habs. congruence.
Qed.

End DispatchMore.

(** ** The ledger and the dispatch tool together *)

Section TwoNormalizers.

Variable str_isdigit : N -> bool.
Variable re_digit : N -> bool.

Lemma filter_agree (l : pystr) :
  (forall c, In c l -> str_isdigit c = re_digit c) ->
  filter str_isdigit l = filter re_digit l.
Proof.
  induction l as [|c l IH]; intros H; simpl; [reflexivity|].
  rewrite (H c) by now left. rewrite IH; [reflexivity|].
  intros x Hx. apply H. now right.
Qed.

Lemma key_from_digits (phone : pystr) :
  (forall c, In c phone -> str_isdigit c = re_digit c) ->
  re_digit PLUS = false ->
  Ledger._normalize_phone str_isdigit phone
  = (if startswith phone [PLUS] then [PLUS] else [])
      ++ Dispatch._normalize_phone re_digit phone.
Proof.
  intros Hagree Hplus.
  unfold Ledger._normalize_phone, Dispatch._normalize_phone.
  rewrite <- (filter_agree phone Hagree).
  destruct phone as [|c rest]; [reflexivity|].
  cbn [startswith]. destruct (N.eqb_spec c PLUS) as [->|Hc]; cbn [andb].
  - assert (Hplus' : str_isdigit PLUS = false).
    { rewrite (Hagree PLUS) by now left. exact Hplus. }
    destruct rest; cbn [filter app]; rewrite Hplus'; reflexivity.
  - reflexivity.
Qed.

(** X19. For phones on whose characters [str.isdigit] and [\d] agree (as
    they do on ASCII), two phones that the ledger takes for the same
    contact are sent to the same JID. *)
Theorem same_contact_same_jid (a b : pystr) :
  (forall c, In c a -> str_isdigit c = re_digit c) ->
  (forall c, In c b -> str_isdigit c = re_digit c) ->
  re_digit PLUS = false ->
  Ledger._normalize_phone str_isdigit a = Ledger._normalize_phone str_isdigit b ->
  Dispatch._phone_to_jid re_digit a = Dispatch._phone_to_jid re_digit b.
Proof.
  intros Ha Hb Hplus Hkey.
  rewrite (key_from_digits a Ha Hplus), (key_from_digits b Hb Hplus) in Hkey.
  unfold Dispatch._phone_to_jid. f_equal.
  unfold Dispatch._normalize_phone in Hkey.
  assert (Hnoplus : forall l, ~ In PLUS (filter re_digit l)).
  { intros l Hin. apply filter_In in Hin as [_ Hin]. congruence. }
  destruct (startswith a [PLUS]), (startswith b [PLUS]); cbn [app] in Hkey.
  - now injection Hkey.
  - exfalso. apply (Hnoplus b). rewrite <- Hkey. now left.
  - exfalso. apply (Hnoplus a). rewrite Hkey. now left.
  - exact Hkey.
Qed.

End TwoNormalizers.

(** ** Listing with a filter *)

(** X20. With a non-empty status, [list_leads] returns what it returns
    without a filter for the ledger of the leads that have this status,
    kept in order and numbered again from 1; and it returns "No leads
    found." exactly when no lead has the status. *)
Theorem list_leads_filters (w : world) (leads : list lead) (status : pystr) :
  Ledger._load w = (Return (Records leads), w) ->
  status <> [] ->
  let kept := filter (fun l => str_eqb (Lead.status l) status) leads in
  fst (Ledger.list_leads status w)
  = fst (Ledger.list_leads
           [] {| disk := Text (Json (Records kept)); writable := writable w; clock := clock w;
                 ticks := ticks w; writes := writes w |}) /\
  (fst (Ledger.list_leads status w) = Return (lit "No leads found.") <->
   forall l, In l leads -> Lead.status l <> status).
Proof.
  intros Hload Hstatus kept.
  assert (Hleft : fst (Ledger.list_leads status w)
                  = if is_falsy (Records kept) then Return (lit "No leads found.")
                    else Return
                           (join [Ledger.NL]
                              ((lit "Total: " ++ str_of_nat (List.length kept)
                                  ++ lit " leads" ++ [Ledger.NL])
                                 :: map Ledger.summary_line
                                      (Ledger.enumerate 1 kept)))).
  { unfold Ledger.list_leads, bind. rewrite Hload.
    destruct status as [|c status]; [congruence|]. cbn [truthy iterate ret].
    fold kept. destruct kept; reflexivity. }
  split.
  - rewrite Hleft. unfold Ledger.list_leads, bind.
    erewrite load_stored by reflexivity. cbn [truthy ret].
    destruct kept; reflexivity.
  - rewrite Hleft. split.
    + intros H l Hin Hl.
      assert (Hkept : In l kept).
      { apply filter_In. split; [exact Hin|]. now apply str_eqb_eq. }
      destruct kept as [|k kept']; [contradiction|].
      cbn [is_falsy] in H.
      apply (f_equal (fun o => match o with
                               | Return line => hd 0%N line
                               | Raise _ => 0%N
                               end)) in H.
      cbn [join Ledger.enumerate List.length seq combine map] in H.
      destruct (map Ledger.summary_line (combine (seq 2 (List.length kept')) kept'));
        vm_compute in H; discriminate H.
    + intros H. destruct kept as [|k kept'] eqn:Ek; [reflexivity|].
      exfalso. assert (Hin : In k kept) by (subst kept; rewrite Ek; now left).
      apply filter_In in Hin as [Hin Hk]. apply str_eqb_eq in Hk.
      exact (H k Hin Hk).
Qed.

(** ** The further properties on concrete worlds *)


(** X5: adding a third contact does not change what check says of Joe. *)
Lemma add_keeps_other_answers_witness :
  Ledger._load Scenario.stocked
  = (Return (Records [Scenario.ann; Scenario.joe]), Scenario.stocked) /\
  Ledger._normalize_phone Latin1.isdigit (lit "+1234567890")
  <> Ledger._normalize_phone Latin1.isdigit (lit "+15550001111") /\
  fst (Ledger.add_lead Latin1.isdigit (lit "+15550001111") (lit "Bo")
                       (lit "web") (lit "intro") Scenario.stocked)
  = Return (lit "OK: Added +15550001111 (Bo) from web") /\
  fst (Ledger.check_lead
         Latin1.isdigit (lit "+1234567890")
         (snd (Ledger.add_lead Latin1.isdigit (lit "+15550001111") (lit "Bo")
                               (lit "web") (lit "intro") Scenario.stocked)))
  = fst (Ledger.check_lead Latin1.isdigit (lit "+1234567890") Scenario.stocked).
Proof.
  assert (Hother : Ledger._normalize_phone Latin1.isdigit (lit "+1234567890")
                   <> Ledger._normalize_phone Latin1.isdigit (lit "+15550001111"))
    by (vm_compute; discriminate).
  split; [reflexivity|]. split; [exact Hother|]. split; [reflexivity|].
  exact (add_keeps_other_answers
           Latin1.isdigit Scenario.stocked [Scenario.ann; Scenario.joe]
           (lit "+15550001111") (lit "Bo") (lit "web") (lit "intro")
           (lit "+1234567890")
           (lit "OK: Added +15550001111 (Bo) from web") _
           eq_refl Hother eq_refl).
Defined.

(** X6: Joe is marked as responded, and check says so. *)
Lemma update_then_check_status_witness :
  Ledger._load Scenario.stocked
  = (Return (Records [Scenario.ann; Scenario.joe]), Scenario.stocked) /\
  lit "responded" <> [] /\
  fst (Ledger.update_lead Latin1.isdigit (lit "+1234567890") (lit "responded")
                          [] Scenario.stocked)
  = Return (lit "OK: Updated +1234567890 " ++ [RIGHT_ARROW]
              ++ lit " status=responded") /\
  startswith (lit "OK: Updated +1234567890 " ++ [RIGHT_ARROW]
                ++ lit " status=responded") (lit "OK") = true /\
  exists l,
    In l [Scenario.ann; Scenario.joe] /\
    Ledger._normalize_phone Latin1.isdigit (Lead.phone l)
    = Ledger._normalize_phone Latin1.isdigit (lit "+1234567890") /\
    lit "OK: Updated +1234567890 " ++ [RIGHT_ARROW] ++ lit " status=responded"
    = lit "OK: Updated " ++ lit "+1234567890" ++ lit " " ++ [RIGHT_ARROW]
        ++ lit " status=" ++ lit "responded" /\
    Ledger.check_lead
      Latin1.isdigit (lit "+1234567890")
      (snd (Ledger.update_lead Latin1.isdigit (lit "+1234567890")
                               (lit "responded") [] Scenario.stocked))
    = (Return (lit "FOUND: " ++ Lead.phone l ++ lit " | " ++ Lead.name l
                 ++ lit " | status=" ++ lit "responded"
                 ++ lit " | source=" ++ Lead.source l
                 ++ lit " | added=" ++ Lead.date_added l),
       snd (Ledger.update_lead Latin1.isdigit (lit "+1234567890")
                               (lit "responded") [] Scenario.stocked)).
Proof.
  assert (Hs : lit "responded" <> []) by discriminate.
  split; [reflexivity|]. split; [exact Hs|]. split; [reflexivity|].
  split; [reflexivity|].
  exact (update_then_check_status
           Latin1.isdigit Scenario.stocked [Scenario.ann; Scenario.joe]
           (lit "+1234567890") (lit "responded") []
           (lit "OK: Updated +1234567890 " ++ [RIGHT_ARROW]
              ++ lit " status=responded") _
           eq_refl Hs eq_refl eq_refl).
Defined.

(** X7: updating Joe does not change what check says of Ann. *)
Lemma update_keeps_other_answers_witness :
  Ledger._load Scenario.stocked
  = (Return (Records [Scenario.ann; Scenario.joe]), Scenario.stocked) /\
  Ledger._normalize_phone Latin1.isdigit (lit "44 20 7946 0958")
  <> Ledger._normalize_phone Latin1.isdigit (lit "+1234567890") /\
  fst (Ledger.update_lead Latin1.isdigit (lit "+1234567890")
                          (lit "converted") (lit "paid") Scenario.stocked)
  = Return (lit "OK: Updated +1234567890 " ++ [RIGHT_ARROW]
              ++ lit " status=converted") /\
  fst (Ledger.check_lead
         Latin1.isdigit (lit "44 20 7946 0958")
         (snd (Ledger.update_lead Latin1.isdigit (lit "+1234567890")
                                  (lit "converted") (lit "paid")
                                  Scenario.stocked)))
  = fst (Ledger.check_lead Latin1.isdigit (lit "44 20 7946 0958")
                           Scenario.stocked).
Proof.
  assert (Hother : Ledger._normalize_phone Latin1.isdigit (lit "44 20 7946 0958")
                   <> Ledger._normalize_phone Latin1.isdigit (lit "+1234567890"))
    by (vm_compute; discriminate).
  split; [reflexivity|]. split; [exact Hother|]. split; [reflexivity|].
  exact (update_keeps_other_answers
           Latin1.isdigit Scenario.stocked [Scenario.ann; Scenario.joe]
           (lit "+1234567890") (lit "converted") (lit "paid")
           (lit "44 20 7946 0958")
           (lit "OK: Updated +1234567890 " ++ [RIGHT_ARROW]
              ++ lit " status=converted") _
           eq_refl Hother eq_refl).
Defined.


(** X24: a contact whose name holds a lone surrogate is added to the
    stocked ledger; Ann and Joe are gone. *)
Lemma failed_write_loses_the_ledger_witness :
  Ledger._load Scenario.stocked
  = (Return (Records [Scenario.ann; Scenario.joe]), Scenario.stocked) /\
  writable Scenario.stocked = true /\
  encodable [Scenario.LONE_SURROGATE] = false /\
  fst (Ledger.check_lead Latin1.isdigit (lit "+1234567890") Scenario.stocked)
  = Return (lit "FOUND: +1234567890 | Joe's Pizza | status=contacted | source=reddit | added=2023-12-31T09:30:00.481516+00:00") /\
  exists w',
    Ledger.add_lead Latin1.isdigit (lit "+15550001111")
                    [Scenario.LONE_SURROGATE] (lit "web") (lit "intro")
                    Scenario.stocked
    = (Raise UnicodeEncodeError, w') /\
    disk w' = Text NotJson /\
    writes w' = S (writes Scenario.stocked) /\
    Ledger._load w' = (Return (Records []), w') /\
    Ledger.check_lead Latin1.isdigit (lit "+1234567890") w'
    = (Return (lit "NOT_FOUND: " ++ lit "+1234567890"
                 ++ lit " is not in the tracker " ++ [EM_DASH]
                 ++ lit " safe to contact"), w').
Proof.
  split; [reflexivity|]. split; [reflexivity|]. split; [reflexivity|].
  split; [reflexivity|].
  apply (failed_write_loses_the_ledger
           Latin1.isdigit Scenario.stocked [Scenario.ann; Scenario.joe]
           (lit "+15550001111") [Scenario.LONE_SURROGATE] (lit "web")
           (lit "intro") (lit "+1234567890") eq_refl);
    [|reflexivity|reflexivity].
  intros r [<-|[<-|[]]]; vm_compute; discriminate.
Defined.

(** X11: the two sources of the stocked ledger, "reddit" counted first. *)
Lemma sorted_is_ascending_witness :
  NoDup (map fst [(lit "reddit", 1); (lit "forum", 1)]) /\
  Ledger.sorted [(lit "reddit", 1); (lit "forum", 1)]
  = [(lit "forum", 1); (lit "reddit", 1)] /\
  StronglySorted (fun a b => str_ltb (fst a) (fst b) = true)
                 (Ledger.sorted [(lit "reddit", 1); (lit "forum", 1)]).
Proof.
  assert (Hd : NoDup (map fst [(lit "reddit", 1); (lit "forum", 1)])).
  { constructor; [|constructor; [intros []|constructor]].
    intros [H|[]]. vm_compute in H. discriminate H. }
  split; [exact Hd|]. split; [reflexivity|].
  exact (proj2 (proj2 (sorted_is_ascending _ Hd))).
Defined.

(** X20: the stocked ledger filtered on "responded" lists Ann alone. *)
Lemma list_leads_filters_witness :
  Ledger._load Scenario.stocked
  = (Return (Records [Scenario.ann; Scenario.joe]), Scenario.stocked) /\
  lit "responded" <> [] /\
  fst (Ledger.list_leads (lit "responded") Scenario.stocked)
  = fst (Ledger.list_leads [] (Scenario.at_disk
                                 (Text (Json (Records [Scenario.ann]))))).
Proof.
  assert (Hs : lit "responded" <> []) by discriminate.
  split; [reflexivity|]. split; [exact Hs|].
  exact (proj1 (list_leads_filters
                  Scenario.stocked [Scenario.ann; Scenario.joe]
                  (lit "responded") eq_refl Hs)).
Defined.

(** X15: nobody listens on the default endpoint. *)
Lemma execute_reports_transport_failure_witness :
  lit "+1 (234) 567-890" <> [] /\ lit "hello" <> [] /\
  7 <= List.length (filter Latin1.decimal (lit "+1 (234) 567-890")) <= 15 /\
  Dispatch.execute Latin1.decimal Scenario.the_tool Scenario.no_bridge
                   (lit "+1 (234) 567-890") (lit "hello")
  = (lit "Error: Cannot connect to WhatsApp bridge at "
       ++ lit "ws://localhost:3001"
       ++ lit ". Make sure the bridge is running (cd bridge && npm start).",
     [Dispatch.Connect (lit "ws://localhost:3001")]).
Proof.
  assert (Hp : lit "+1 (234) 567-890" <> []) by discriminate.
  assert (Hm : lit "hello" <> []) by discriminate.
  assert (Hn : 7 <= List.length (filter Latin1.decimal (lit "+1 (234) 567-890"))
               <= 15) by (vm_compute; lia).
  split; [exact Hp|]. split; [exact Hm|]. split; [exact Hn|].
  destruct (execute_reports_transport_failure
              Latin1.decimal Scenario.the_tool Scenario.no_bridge
              (lit "+1 (234) 567-890") (lit "hello") _
              Hp Hm Hn eq_refl (or_introl eq_refl))
    as (Hline & Hdone & _).
  rewrite (surjective_pairing (Dispatch.execute _ _ _ _ _)), Hline,
    (Hdone eq_refl).
  reflexivity.
Defined.

(** X16: the bridge answers with something that is not JSON. *)
Lemma execute_malformed_reply_witness :
  lit "+1 (234) 567-890" <> [] /\ lit "hello" <> [] /\
  7 <= List.length (filter Latin1.decimal (lit "+1 (234) 567-890")) <= 15 /\
  (1 < 15)%Q /\
  fst (Dispatch.execute
         Latin1.decimal Scenario.the_tool
         (Scenario.bridge_that
            (Dispatch.Arrives 1%Q (Dispatch.Unparsable (lit "Expecting value"))))
         (lit "+1 (234) 567-890") (lit "hello"))
  = lit "Error sending WhatsApp message: " ++ lit "Expecting value".
Proof.
  assert (Hp : lit "+1 (234) 567-890" <> []) by discriminate.
  assert (Hm : lit "hello" <> []) by discriminate.
  assert (Hn : 7 <= List.length (filter Latin1.decimal (lit "+1 (234) 567-890"))
               <= 15) by (vm_compute; lia).
  assert (Ht : (1 < 15)%Q) by reflexivity.
  split; [exact Hp|]. split; [exact Hm|]. split; [exact Hn|].
  split; [exact Ht|].
  rewrite (execute_malformed_reply
             Latin1.decimal Scenario.the_tool
             (Scenario.bridge_that
                (Dispatch.Arrives 1%Q (Dispatch.Unparsable (lit "Expecting value"))))
             (lit "+1 (234) 567-890") (lit "hello") 1%Q (lit "Expecting value")
             Hp Hm Hn eq_refl eq_refl eq_refl (or_introl eq_refl) Ht).
  reflexivity.
Defined.

(** X17: the bridge confirms after one second. *)
Lemma execute_sent_confirms_witness :
  lit "+1 (234) 567-890" <> [] /\ lit "hello" <> [] /\
  7 <= List.length (filter Latin1.decimal (lit "+1 (234) 567-890")) <= 15 /\
  (1 < 15)%Q /\
  fst (Dispatch.execute
         Latin1.decimal Scenario.the_tool
         (Scenario.bridge_that (Dispatch.Arrives 1%Q Scenario.sent_frame))
         (lit "+1 (234) 567-890") (lit "hello"))
  = lit "OK: Message sent to " ++ lit "+1 (234) 567-890" ++ lit " ("
      ++ (filter Latin1.decimal (lit "+1 (234) 567-890")
            ++ lit "@s.whatsapp.net") ++ lit ")".
Proof.
  assert (Hp : lit "+1 (234) 567-890" <> []) by discriminate.
  assert (Hm : lit "hello" <> []) by discriminate.
  assert (Hn : 7 <= List.length (filter Latin1.decimal (lit "+1 (234) 567-890"))
               <= 15) by (vm_compute; lia).
  assert (Ht : (1 < 15)%Q) by reflexivity.
  split; [exact Hp|]. split; [exact Hm|]. split; [exact Hn|].
  split; [exact Ht|].
  exact (execute_sent_confirms
           Latin1.decimal Scenario.the_tool
           (Scenario.bridge_that (Dispatch.Arrives 1%Q Scenario.sent_frame))
           (lit "+1 (234) 567-890") (lit "hello") 1%Q _
           Hp Hm Hn eq_refl eq_refl eq_refl eq_refl Ht eq_refl).
Defined.

(** X18: an "OK" line, and the reply behind it. *)
Lemma execute_ok_needs_reply_witness :
  startswith
    (fst (Dispatch.execute
            Latin1.decimal Scenario.the_tool
            (Scenario.bridge_that (Dispatch.Arrives 1%Q Scenario.status_frame))
            (lit "+1 (234) 567-890") (lit "hello")))
    (lit "OK") = true /\
  exists after response,
    Dispatch.answer
      (Scenario.bridge_that (Dispatch.Arrives 1%Q Scenario.status_frame))
    = Dispatch.Arrives after (Dispatch.Object response) /\
    (after < 15)%Q /\
    Dispatch.get response (lit "type") <> Some (Dispatch.JStr (lit "error")) /\
    Dispatch.websockets_installed
      (Scenario.bridge_that (Dispatch.Arrives 1%Q Scenario.status_frame))
    = true /\
    Dispatch.connect_fails
      (Scenario.bridge_that (Dispatch.Arrives 1%Q Scenario.status_frame))
    = None /\
    Dispatch.send_fails
      (Scenario.bridge_that (Dispatch.Arrives 1%Q Scenario.status_frame))
    = None /\
    snd (Dispatch.execute
           Latin1.decimal Scenario.the_tool
           (Scenario.bridge_that (Dispatch.Arrives 1%Q Scenario.status_frame))
           (lit "+1 (234) 567-890") (lit "hello"))
    = [Dispatch.Connect (Dispatch.bridge_url Scenario.the_tool);
       Dispatch.Send [(lit "type", lit "send");
                      (lit "to", Dispatch._phone_to_jid Latin1.decimal
                                   (lit "+1 (234) 567-890"));
                      (lit "text", lit "hello")];
       Dispatch.Recv 15%Q].
Proof.
  assert (Hok : startswith
                  (fst (Dispatch.execute
                          Latin1.decimal Scenario.the_tool
                          (Scenario.bridge_that
                             (Dispatch.Arrives 1%Q Scenario.status_frame))
                          (lit "+1 (234) 567-890") (lit "hello")))
                  (lit "OK") = true) by reflexivity.
  split; [exact Hok|].
  exact (execute_ok_needs_reply
           Latin1.decimal Scenario.the_tool
           (Scenario.bridge_that (Dispatch.Arrives 1%Q Scenario.status_frame))
           (lit "+1 (234) 567-890") (lit "hello") Hok).
Defined.

(** X19: two spellings of one number, one contact, one JID. *)
Lemma same_contact_same_jid_witness :
  (forall c, In c (lit "+1 (234) 567-890") ->
             Latin1.isdigit c = Latin1.decimal c) /\
  (forall c, In c (lit "+1234567890") ->
             Latin1.isdigit c = Latin1.decimal c) /\
  Latin1.decimal PLUS = false /\
  Ledger._normalize_phone Latin1.isdigit (lit "+1 (234) 567-890")
  = Ledger._normalize_phone Latin1.isdigit (lit "+1234567890") /\
  Dispatch._phone_to_jid Latin1.decimal (lit "+1 (234) 567-890")
  = Dispatch._phone_to_jid Latin1.decimal (lit "+1234567890").
Proof.
  assert (Ha : forall c, In c (lit "+1 (234) 567-890") ->
                         Latin1.isdigit c = Latin1.decimal c).
  { intros c Hin. cbn in Hin.
    repeat (destruct Hin as [<-|Hin]; [reflexivity|]). contradiction. }
  assert (Hb : forall c, In c (lit "+1234567890") ->
                         Latin1.isdigit c = Latin1.decimal c).
  { intros c Hin. cbn in Hin.
    repeat (destruct Hin as [<-|Hin]; [reflexivity|]). contradiction. }
  split; [exact Ha|]. split; [exact Hb|]. split; [reflexivity|].
  split; [reflexivity|].
  exact (same_contact_same_jid
           Latin1.isdigit Latin1.decimal
           (lit "+1 (234) 567-890") (lit "+1234567890")
           Ha Hb eq_refl eq_refl).
Defined.

(** ** What a call that returns leaves behind *)

Section Accounting.

Variable str_isdigit : N -> bool.

Let normalize := Ledger._normalize_phone str_isdigit.






End Accounting.



(** ** The self-test *)

Section SelfTest.

Variable str_isdigit : N -> bool.
Hypothesis ascii_digits : forall c, (48 <= c <= 57)%N -> str_isdigit c = true.




End SelfTest.

